(** * RN-42 command-mode protocol engine (rn42.py)

    A shallow embedding of the class [RN42] of [rn42.py]: the transaction
    executor [serial_send_and_receive], the command-mode state machine
    ([enter_command_mode], [leave_command_mode], [close]), the decoding
    tables and the one-line operations built on them.

    Python text is modelled by [string] (code points below 256), a Python
    [dict] by stdpp's [gmap], the instance attributes by a record, and
    exceptions by a result type threaded through a state monad: a raised
    exception keeps every attribute assignment made before it, as in
    Python. *)

From Stdlib Require Import ZArith Ascii String.
From stdpp Require Import gmap strings list fin_maps.

Open Scope string_scope.
Open Scope list_scope.

(** ** Python text operations used by the module *)

Module Str.

(** [str.isspace] on the code points below 256. *)
Definition isspace (c : ascii) : bool :=
  let n := nat_of_ascii c in
  (((9 <=? n) && (n <=? 13)) || ((28 <=? n) && (n <=? 32))
   || (n =? 133) || (n =? 160))%nat.

Fixpoint lstrip (s : string) : string :=
  match s with
  | EmptyString => EmptyString
  | String c s' => if isspace c then lstrip s' else s
  end.

Fixpoint rstrip (s : string) : string :=
  match s with
  | EmptyString => EmptyString
  | String c s' =>
      match rstrip s' with
      | EmptyString => if isspace c then EmptyString else String c EmptyString
      | t => String c t
      end
  end.

(** [s.strip()] *)
Definition strip (s : string) : string := rstrip (lstrip s).

(** [s.startswith(p)] *)
Fixpoint startswith (s p : string) : bool :=
  match p, s with
  | EmptyString, _ => true
  | String a p', String b s' => Ascii.eqb a b && startswith s' p'
  | String _ _, EmptyString => false
  end.

(** [sub in s] *)
Fixpoint contains (sub s : string) : bool :=
  startswith s sub
  || match s with
     | EmptyString => false
     | String _ s' => contains sub s'
     end.

(** Truth value of a [str]: non-empty. *)
Definition truthy (s : string) : bool := negb (String.eqb s "").

(** [s.split(',')[0]]: the text before the first comma. *)
Fixpoint split_comma_0 (s : string) : string :=
  match s with
  | EmptyString => EmptyString
  | String c s' => if Ascii.eqb c "," then EmptyString else String c (split_comma_0 s')
  end.

End Str.

(** ** Exceptions and results *)

(** The exception classes the module distinguishes.  [OtherException] is
    any other subclass of [Exception] (a [SerialException], a
    [UnicodeDecodeError]); [NonException] is a [BaseException] that is no
    [Exception] (a [KeyboardInterrupt]).  [except Exception] catches the
    first three; [except serial.SerialTimeoutException] only the second. *)
Inductive exception : Type :=
| RN42Exception (message : string)
| SerialTimeoutException (message : string)
| OtherException (cls message : string)
| NonException (cls message : string).

Definition isinstance_Exception (e : exception) : bool :=
  match e with
  | NonException _ _ => false
  | _ => true
  end.

Definition isinstance_SerialTimeoutException (e : exception) : bool :=
  match e with
  | SerialTimeoutException _ => true
  | _ => false
  end.

Inductive result (A : Type) : Type :=
| Return (a : A)
| Raise (e : exception).
Arguments Return {A} a.
Arguments Raise {A} e.

Definition raised {A} (r : result A) : bool :=
  match r with
  | Return _ => false
  | Raise _ => true
  end.

(** ** The serial device

    [serial_utils.SerialDevice] is an external collaborator.  Its state is
    an arbitrary type [T]; [SendReceive(data, size, retry).decode()] is a
    function giving the decoded text or the exception raised, and the next
    state.  Every call made on the device is recorded in [calls]. *)

Inductive call : Type :=
| CallSendReceive (data : string) (size retry : Z)
| CallDisconnect.

Record SerialDevice (T : Type) : Type := mkSerial {
  link : T;
  calls : list call
}.
Arguments mkSerial {T} link calls.
Arguments link {T} s.
Arguments calls {T} s.

(** The instance attributes of [RN42]. *)
Record RN42 (T : Type) : Type := mkRN42 {
  _command_mode : bool;
  _closed : bool;
  _serial : SerialDevice T
}.
Arguments mkRN42 {T} _command_mode _closed _serial.
Arguments _command_mode {T} r.
Arguments _closed {T} r.
Arguments _serial {T} r.

(** Number of [Disconnect] calls in a call log. *)
Fixpoint disconnects (l : list call) : nat :=
  match l with
  | [] => 0
  | CallDisconnect :: l' => S (disconnects l')
  | CallSendReceive _ _ _ :: l' => disconnects l'
  end.

(** The texts handed to [SendReceive], in order. *)
Fixpoint transmitted (l : list call) : list string :=
  match l with
  | [] => []
  | CallSendReceive d _ _ :: l' => d :: transmitted l'
  | CallDisconnect :: l' => transmitted l'
  end.

(** ** Methods as state transformers over [self] *)

Definition M (T A : Type) : Type := RN42 T -> result A * RN42 T.

Definition ret {T A} (a : A) : M T A := fun self => (Return a, self).

Definition raise {T A} (e : exception) : M T A := fun self => (Raise e, self).

Definition bind {T A B} (m : M T A) (k : A -> M T B) : M T B :=
  fun self =>
    match m self with
    | (Return a, self') => k a self'
    | (Raise e, self') => (Raise e, self')
    end.

(** [try: body  except <class>: handler], the class given by its
    [isinstance] test. *)
Definition try_except {T A} (body : M T A) (catches : exception -> bool)
    (handler : M T A) : M T A :=
  fun self =>
    match body self with
    | (Return a, self') => (Return a, self')
    | (Raise e, self') => if catches e then handler self' else (Raise e, self')
    end.

Definition get_command_mode {T} : M T bool :=
  fun self => (Return (_command_mode self), self).

Definition get_closed {T} : M T bool :=
  fun self => (Return (_closed self), self).

Definition set_command_mode {T} (b : bool) : M T unit :=
  fun self => (Return tt, mkRN42 b (_closed self) (_serial self)).

Definition set_closed {T} (b : bool) : M T unit :=
  fun self => (Return tt, mkRN42 (_command_mode self) b (_serial self)).

Notation "x <- m ;; k" := (bind m (fun x => k))
  (at level 100, m at next level, right associativity).
Notation "m ;;; k" := (bind m (fun _ => k))
  (at level 100, right associativity).

(** ** Class constants *)

Definition CHIP_NAME : string := "RNBT".
Definition RETRY : Z := 2.
Definition NEWLINE : string := String "013" (String "010" EmptyString).

Definition AOK : string := "AOK".
Definition UNKNOWN : string := "?".

Definition CMD_ENTER_COMMAND_MODE : string := "$$$".
Definition CMD_LEAVE_COMMAND_MODE : string := "---".
Definition CMD_REBOOT : string := "R,1".
Definition CMD_GET_CHIP_NAME : string := "GN".
Definition CMD_GET_FIRMWARE_VERSION : string := "V".
Definition CMD_GET_OPERATION_MODE : string := "GM".
Definition CMD_SET_MASTER_MODE : string := "SM,1".
Definition CMD_SET_SLAVE_MODE : string := "SM,0".
Definition CMD_GET_AUTHENTICATION_MODE : string := "GA".
Definition CMD_SET_AUTHENTICATION_OPEN_MODE : string := "SA,0".
Definition CMD_SET_AUTHENTICATION_PIN_MODE : string := "SA,4".
Definition PROFILE_SPP : string := "0".
Definition PROFILE_HID : string := "6".
Definition CMD_GET_SERVICE_PROFILE : string := "G~".
Definition CMD_SET_SERVICE_PROFILE_SPP : string := "S~," +:+ PROFILE_SPP.
Definition CMD_SET_SERVICE_PROFILE_HID : string := "S~," +:+ PROFILE_HID.
Definition CMD_GET_RN42_BLUETOOTH_MAC : string := "GB".
Definition CMD_GET_CONNECTION_STATUS : string := "GK".
Definition CMD_GET_REMOTE_CONNECTED_BLUETOOTH_MAC : string := "GF".
Definition CMD_GET_HID : string := "GH".
Definition CMD_SET_HID_KEYBOARD : string := "SH,0000".
Definition CMD_SET_HID_GAMEPAD : string := "SH,0010".
Definition CMD_SET_HID_MOUSE : string := "SH,0020".
Definition CMD_SET_HID_COMBO : string := "SH,0030".
Definition CMD_SET_HID_JOYSTICK : string := "SH,0040".

(** ** Decoding tables *)

Definition OPERATION_MODE : gmap string string :=
  list_to_map
    [("Slav", "SLAVE"); ("Mstr", "MASTER"); ("Trig", "TRIGGER");
     ("Auto", "AUTO"); ("DTR", "DTR"); ("Any", "ANY"); ("Pair", "PAIR")].

Definition AUTHENTICATION_MODE : gmap string string :=
  list_to_map
    [("0", "OPEN"); ("1", "SSP_KEYBOARD"); ("2", "SSP_JUST_WORK");
     ("4", "PIN_CODE")].

Definition SERVICE_PROFILE : gmap string string :=
  list_to_map
    [("0", "SPP"); ("1", "DUN_DCE"); ("2", "DUN_DTE"); ("3", "MDM_SPP");
     ("4", "SPP_AND_DUN_DCE"); ("5", "APL"); ("6", "HID")].

Definition HID_DEVICE_TYPE : gmap string string :=
  list_to_map
    [("0200", "KEYBOARD"); ("0210", "GAMEPAD"); ("0220", "MOUSE");
     ("0230", "COMBO"); ("0240", "JOYSTICK"); ("0250", "DIGITIZER");
     ("0260", "SENSOR"); ("0270", "USECFG")].

(** [table.get(code)]: the label, or [None] for a code that is no key. *)
Definition dict_get (table : gmap string string) (code : string) : option string :=
  table !! code.

(** ** The methods of [RN42] *)

Section Engine.

Variable T : Type.

(** Modelled from the spec: [serial_utils.SerialDevice.SendReceive] is
    not part of the module; the contract is
    [sendReceive(bytes, maxSize, retryBudget) -> Result<bytes, TransportError>].
    The function stands for [SendReceive(data, size=, retry=).decode()]:
    the decoded text, or the exception raised by the call or by the
    decoding. *)
Variable wire_SendReceive : string -> Z -> Z -> T -> result string * T.

(** Modelled from the spec: [serial_utils.SerialDevice.Disconnect] is not
    part of the module; the contract is [disconnect() -> ()], assumed to
    always succeed. *)
Variable wire_Disconnect : T -> T.

(** [self._serial.SendReceive(data, size=size, retry=retry).decode()] *)
Definition SendReceive (data : string) (size retry : Z) : M T string :=
  fun self =>
    let d := _serial self in
    let (r, l') := wire_SendReceive data size retry (link d) in
    (r, mkRN42 (_command_mode self) (_closed self)
          (mkSerial l' (calls d ++ [CallSendReceive data size retry]))).

(** [self._serial.Disconnect()] *)
Definition Disconnect : M T unit :=
  fun self =>
    let d := _serial self in
    (Return tt, mkRN42 (_command_mode self) (_closed self)
                  (mkSerial (wire_Disconnect (link d)) (calls d ++ [CallDisconnect]))).

Definition default_msg : string := "serial SendReceive()".

(** [(expect and expect != result) or
     (expect_in and expect_in not in result)] *)
Definition unexpected (expect expect_in result : string) : bool :=
  (Str.truthy expect && negb (String.eqb expect result))
  || (Str.truthy expect_in && negb (Str.contains expect_in result)).

Definition serial_send_and_receive (command expect expect_in msg : string)
    : M T string :=
  try_except
    (r <- SendReceive (command +:+ NEWLINE) 0 RETRY ;;
     let result := Str.strip r in
     if unexpected expect expect_in result
     then raise (RN42Exception ("Failulre in " +:+ msg +:+ ": " +:+ result))
     else ret result)
    isinstance_Exception
    (raise (RN42Exception ("Failulre in " +:+ msg))).

Definition get_chip_name : M T string :=
  serial_send_and_receive CMD_GET_CHIP_NAME "" "" "getting chip name".

Definition enter_command_mode : M T bool :=
  result <- try_except
              (r <- SendReceive CMD_ENTER_COMMAND_MODE 0 RETRY ;;
               ret (Str.strip r))
              isinstance_SerialTimeoutException
              (raise (RN42Exception "Failure in entering command mode.")) ;;
  if Str.contains "CMD" result then
    (set_command_mode true ;;; ret true)
  else if String.eqb result "" then
    try_except
      (chip_name <- get_chip_name ;;
       if Str.startswith chip_name CHIP_NAME then
         (set_command_mode true ;;; ret true)
       else
         raise (RN42Exception
                  ("Incorrect chip name when entering command mode: "
                   +:+ chip_name)))
      isinstance_Exception
      (raise (RN42Exception
                "Failure to get chip name in entering command mode."))
  else
    raise (RN42Exception
             ("Incorrect response in entering command mode: " +:+ result)).

Definition leave_command_mode : M T bool :=
  command_mode <- get_command_mode ;;
  (if command_mode : bool then
     (serial_send_and_receive CMD_LEAVE_COMMAND_MODE "END" ""
        "leaving command mode" ;;;
      set_command_mode false)
   else ret tt) ;;;
  ret true.

Definition close : M T unit :=
  closed <- get_closed ;;
  if negb closed then
    (leave_command_mode ;;;
     Disconnect ;;;
     set_closed true)
  else ret tt.

(** [__del__] *)
Definition __del__ : M T unit := close.

Definition reboot : M T bool :=
  serial_send_and_receive CMD_REBOOT "Reboot" "" "rebooting RN-42" ;;;
  ret true.

Definition get_firmware_version : M T string :=
  serial_send_and_receive CMD_GET_FIRMWARE_VERSION "" "Ver"
    "getting firmware version".

Definition get_operation_mode : M T (option string) :=
  result <- serial_send_and_receive CMD_GET_OPERATION_MODE "" ""
              "getting operation mode" ;;
  ret (dict_get OPERATION_MODE result).

Definition set_master_mode : M T bool :=
  serial_send_and_receive CMD_SET_MASTER_MODE AOK "" "setting master mode" ;;;
  ret true.

Definition set_slave_mode : M T bool :=
  serial_send_and_receive CMD_SET_SLAVE_MODE AOK "" "setting slave mode" ;;;
  ret true.

Definition get_authentication_mode : M T (option string) :=
  result <- serial_send_and_receive CMD_GET_AUTHENTICATION_MODE "" ""
              "getting authentication mode" ;;
  ret (dict_get AUTHENTICATION_MODE result).

Definition set_authentication_open_mode : M T bool :=
  serial_send_and_receive CMD_SET_AUTHENTICATION_OPEN_MODE AOK ""
    "setting authentication open mode" ;;;
  ret true.

Definition set_authentication_pin_mode : M T bool :=
  serial_send_and_receive CMD_SET_AUTHENTICATION_PIN_MODE AOK ""
    "setting authentication pin mode" ;;;
  ret true.

Definition get_service_profile : M T (option string) :=
  result <- serial_send_and_receive CMD_GET_SERVICE_PROFILE "" ""
              "getting service profile" ;;
  ret (dict_get SERVICE_PROFILE result).

Definition set_service_profile_SPP : M T bool :=
  serial_send_and_receive CMD_SET_SERVICE_PROFILE_SPP AOK ""
    "setting SPP as service profile" ;;;
  ret true.

Definition set_service_profile_HID : M T bool :=
  serial_send_and_receive CMD_SET_SERVICE_PROFILE_HID AOK ""
    "setting HID as service profile" ;;;
  ret true.

Definition get_local_bluetooth_address : M T string :=
  serial_send_and_receive CMD_GET_RN42_BLUETOOTH_MAC "" ""
    "getting local bluetooth address".

Definition get_connection_status : M T bool :=
  result <- serial_send_and_receive CMD_GET_CONNECTION_STATUS "" ""
              "getting connection status" ;;
  let connection := Str.split_comma_0 result in
  ret (String.eqb connection "1").

Definition get_remote_connected_bluetooth_address : M T (option string) :=
  result <- serial_send_and_receive CMD_GET_REMOTE_CONNECTED_BLUETOOTH_MAC
              "" "" "getting local bluetooth address" ;;
  ret (if String.eqb result "000000000000" then None else Some result).

Definition get_HID_deviceType : M T (option string) :=
  result <- serial_send_and_receive CMD_GET_HID "" ""
              "getting HID device type" ;;
  ret (dict_get HID_DEVICE_TYPE result).

Definition set_HID_keyboard : M T bool :=
  serial_send_and_receive CMD_SET_HID_KEYBOARD AOK ""
    "setting keyboard as HID device" ;;;
  ret true.

Definition set_HID_gamepad : M T bool :=
  serial_send_and_receive CMD_SET_HID_GAMEPAD AOK ""
    "setting gamepad as HID device" ;;;
  ret true.

Definition set_HID_mouse : M T bool :=
  serial_send_and_receive CMD_SET_HID_MOUSE AOK ""
    "setting mouse as HID device" ;;;
  ret true.

Definition set_HID_combo : M T bool :=
  serial_send_and_receive CMD_SET_HID_COMBO AOK ""
    "setting combo as HID device" ;;;
  ret true.

Definition set_HID_joystick : M T bool :=
  serial_send_and_receive CMD_SET_HID_JOYSTICK AOK ""
    "setting joystick as HID device" ;;;
  ret true.

(** *** The public operations, as one family *)

Inductive value : Type :=
| VNone
| VBool (b : bool)
| VStr (s : string).

Definition of_bool (m : M T bool) : M T value := b <- m ;; ret (VBool b).
Definition of_str (m : M T string) : M T value := s <- m ;; ret (VStr s).
Definition of_unit (m : M T unit) : M T value := m ;;; ret VNone.
Definition of_optional (m : M T (option string)) : M T value :=
  o <- m ;; ret (match o with Some s => VStr s | None => VNone end).

Inductive method : Type :=
| m_close
| m_serial_send_and_receive (command expect expect_in msg : string)
| m_enter_command_mode
| m_leave_command_mode
| m_reboot
| m_get_chip_name
| m_get_firmware_version
| m_get_operation_mode
| m_set_master_mode
| m_set_slave_mode
| m_get_authentication_mode
| m_set_authentication_open_mode
| m_set_authentication_pin_mode
| m_get_service_profile
| m_set_service_profile_SPP
| m_set_service_profile_HID
| m_get_local_bluetooth_address
| m_get_connection_status
| m_get_remote_connected_bluetooth_address
| m_get_HID_deviceType
| m_set_HID_keyboard
| m_set_HID_gamepad
| m_set_HID_mouse
| m_set_HID_combo
| m_set_HID_joystick.

Definition invoke (m : method) : M T value :=
  match m with
  | m_close => of_unit close
  | m_serial_send_and_receive command expect expect_in msg =>
      of_str (serial_send_and_receive command expect expect_in msg)
  | m_enter_command_mode => of_bool enter_command_mode
  | m_leave_command_mode => of_bool leave_command_mode
  | m_reboot => of_bool reboot
  | m_get_chip_name => of_str get_chip_name
  | m_get_firmware_version => of_str get_firmware_version
  | m_get_operation_mode => of_optional get_operation_mode
  | m_set_master_mode => of_bool set_master_mode
  | m_set_slave_mode => of_bool set_slave_mode
  | m_get_authentication_mode => of_optional get_authentication_mode
  | m_set_authentication_open_mode => of_bool set_authentication_open_mode
  | m_set_authentication_pin_mode => of_bool set_authentication_pin_mode
  | m_get_service_profile => of_optional get_service_profile
  | m_set_service_profile_SPP => of_bool set_service_profile_SPP
  | m_set_service_profile_HID => of_bool set_service_profile_HID
  | m_get_local_bluetooth_address => of_str get_local_bluetooth_address
  | m_get_connection_status => of_bool get_connection_status
  | m_get_remote_connected_bluetooth_address =>
      of_optional get_remote_connected_bluetooth_address
  | m_get_HID_deviceType => of_optional get_HID_deviceType
  | m_set_HID_keyboard => of_bool set_HID_keyboard
  | m_set_HID_gamepad => of_bool set_HID_gamepad
  | m_set_HID_mouse => of_bool set_HID_mouse
  | m_set_HID_combo => of_bool set_HID_combo
  | m_set_HID_joystick => of_bool set_HID_joystick
  end.

End Engine.

Arguments SendReceive {T} wire_SendReceive.
Arguments serial_send_and_receive {T} wire_SendReceive.
Arguments get_chip_name {T} wire_SendReceive.
Arguments enter_command_mode {T} wire_SendReceive.
Arguments leave_command_mode {T} wire_SendReceive.
Arguments reboot {T} wire_SendReceive.
Arguments get_firmware_version {T} wire_SendReceive.
Arguments get_operation_mode {T} wire_SendReceive.
Arguments set_master_mode {T} wire_SendReceive.
Arguments set_slave_mode {T} wire_SendReceive.
Arguments get_authentication_mode {T} wire_SendReceive.
Arguments set_authentication_open_mode {T} wire_SendReceive.
Arguments set_authentication_pin_mode {T} wire_SendReceive.
Arguments get_service_profile {T} wire_SendReceive.
Arguments set_service_profile_SPP {T} wire_SendReceive.
Arguments set_service_profile_HID {T} wire_SendReceive.
Arguments get_local_bluetooth_address {T} wire_SendReceive.
Arguments get_connection_status {T} wire_SendReceive.
Arguments get_remote_connected_bluetooth_address {T} wire_SendReceive.
Arguments get_HID_deviceType {T} wire_SendReceive.
Arguments set_HID_keyboard {T} wire_SendReceive.
Arguments set_HID_gamepad {T} wire_SendReceive.
Arguments set_HID_mouse {T} wire_SendReceive.
Arguments set_HID_combo {T} wire_SendReceive.
Arguments set_HID_joystick {T} wire_SendReceive.
Arguments Disconnect {T} wire_Disconnect.
Arguments close {T} wire_SendReceive wire_Disconnect.
Arguments __del__ {T} wire_SendReceive wire_Disconnect.
Arguments invoke {T} wire_SendReceive wire_Disconnect m.

(** ** A scripted device

    A device whose replies are fixed in advance: each [SendReceive] pops
    the next outcome of the script, and times out once the script is
    exhausted.  It stands for the simulated transport of a test. *)

Module Scripted.

Definition T : Type := list (result string).

Definition SendReceive (data : string) (size retry : Z) (script : T)
    : result string * T :=
  match script with
  | [] => (Raise (SerialTimeoutException "Write timeout"), [])
  | r :: rest => (r, rest)
  end.

Definition Disconnect (script : T) : T := script.

(** The attributes after a successful [__init__]. *)
Definition new (script : T) : RN42 T :=
  mkRN42 false false (mkSerial script []).

(** The same session once it has entered command mode. *)
Definition in_command_mode (script : T) : RN42 T :=
  mkRN42 true false (mkSerial script []).

(** A session in command mode whose device answers ["ERR\r\n"], twice. *)
Definition refusing : RN42 T :=
  in_command_mode [Return ("ERR" +:+ NEWLINE); Return ("ERR" +:+ NEWLINE)].

(** A session in command mode whose device answers ["END\r\n"]. *)
Definition obliging : RN42 T :=
  in_command_mode [Return ("END" +:+ NEWLINE)].

(** A fresh session whose device answers the eleven exchanges of the
    demonstration. *)
Definition demo : RN42 T :=
  new [Return ("CMD" +:+ NEWLINE);
       Return ("RNBT-A955" +:+ NEWLINE);
       Return ("Ver 6.15 04/26/2013" +:+ NEWLINE);
       Return ("Slav" +:+ NEWLINE);
       Return ("4" +:+ NEWLINE);
       Return ("6" +:+ NEWLINE);
       Return ("000666A4A955" +:+ NEWLINE);
       Return ("1,0,0" +:+ NEWLINE);
       Return ("000000000000" +:+ NEWLINE);
       Return ("0220" +:+ NEWLINE);
       Return ("END" +:+ NEWLINE)].

(** A session whose device answers the entry token with nothing and the
    chip-name query with ["XYZ-1234\r\n"]. *)
Definition misnamed : RN42 T :=
  new [Return ""; Return ("XYZ-1234" +:+ NEWLINE)].

End Scripted.

(** [self] after one [SendReceive(data, size=0, retry=RETRY)] that left the
    device in state [l']: the attributes are the same, the call is
    logged. *)
Definition after_send {T} (self : RN42 T) (data : string) (l' : T) : RN42 T :=
  mkRN42 (_command_mode self) (_closed self)
    (mkSerial l' (calls (_serial self) ++ [CallSendReceive data 0 RETRY])).

(** [self] after [Disconnect()]. *)
Definition after_disconnect {T} (wire_Disconnect : T -> T) (self : RN42 T) : RN42 T :=
  mkRN42 (_command_mode self) (_closed self)
    (mkSerial (wire_Disconnect (link (_serial self)))
       (calls (_serial self) ++ [CallDisconnect])).

(** ** Families of methods and shapes of calls *)

(** The setters, each with the command it sends and the label of its
    transaction; all of them expect [AOK]. *)
Definition setters : list (method * (string * string)) :=
  [(m_set_master_mode, (CMD_SET_MASTER_MODE, "setting master mode"));
   (m_set_slave_mode, (CMD_SET_SLAVE_MODE, "setting slave mode"));
   (m_set_authentication_open_mode,
    (CMD_SET_AUTHENTICATION_OPEN_MODE, "setting authentication open mode"));
   (m_set_authentication_pin_mode,
    (CMD_SET_AUTHENTICATION_PIN_MODE, "setting authentication pin mode"));
   (m_set_service_profile_SPP,
    (CMD_SET_SERVICE_PROFILE_SPP, "setting SPP as service profile"));
   (m_set_service_profile_HID,
    (CMD_SET_SERVICE_PROFILE_HID, "setting HID as service profile"));
   (m_set_HID_keyboard, (CMD_SET_HID_KEYBOARD, "setting keyboard as HID device"));
   (m_set_HID_gamepad, (CMD_SET_HID_GAMEPAD, "setting gamepad as HID device"));
   (m_set_HID_mouse, (CMD_SET_HID_MOUSE, "setting mouse as HID device"));
   (m_set_HID_combo, (CMD_SET_HID_COMBO, "setting combo as HID device"));
   (m_set_HID_joystick, (CMD_SET_HID_JOYSTICK, "setting joystick as HID device"))].

(** The getters whose transaction has neither [expect] nor [expect_in]. *)
Definition unchecked_getters : list method :=
  [m_get_chip_name; m_get_operation_mode; m_get_authentication_mode;
   m_get_service_profile; m_get_local_bluetooth_address;
   m_get_connection_status; m_get_remote_connected_bluetooth_address;
   m_get_HID_deviceType].

(** The three methods that assign attributes of the session. *)
Definition manages_session (m : method) : bool :=
  match m with
  | m_close | m_enter_command_mode | m_leave_command_mode => true
  | _ => false
  end.

(** The shape of a call the class makes on the device: [Disconnect()], or
    [SendReceive(data, size=0, retry=2)] with [data] the bare entry token
    or a command followed by the terminator. *)
Definition wire_format (c : call) : Prop :=
  match c with
  | CallDisconnect => True
  | CallSendReceive data size retry =>
      size = 0%Z /\ retry = 2%Z
      /\ (data = "$$$" \/ exists command, data = command +:+ NEWLINE)
  end.

(** Closes [Forall wire_format] on an explicit list of calls. *)
Ltac wire_format_ok :=
  repeat match goal with
         | |- Forall _ [] => constructor
         | |- Forall _ (_ :: _) => constructor
         | |- wire_format CallDisconnect => exact I
         | |- wire_format (CallSendReceive _ _ _) =>
             cbn [wire_format]; split; [reflexivity|split; [reflexivity|]]
         | |- _ = _ \/ _ =>
             first [left; reflexivity|right; eexists; reflexivity]
         end.

(** First and last character of a text. *)
Definition first_char (s : string) : option ascii :=
  match s with
  | EmptyString => None
  | String c _ => Some c
  end.

Fixpoint last_char (s : string) : option ascii :=
  match s with
  | EmptyString => None
  | String c EmptyString => Some c
  | String _ s' => last_char s'
  end.

(** A text with no white space at either end. *)
Definition trimmed (s : string) : Prop :=
  (forall c, first_char s = Some c -> Str.isspace c = false)
  /\ (forall c, last_char s = Some c -> Str.isspace c = false).

(** ** A steady device

    A device that answers every [SendReceive] with the same text. *)

Module Steady.

Definition T : Type := unit.

Definition SendReceive (reply : string) (data : string) (size retry : Z)
    (l : T) : result string * T :=
  (Return reply, l).

Definition Disconnect (l : T) : T := l.

Definition new : RN42 T := mkRN42 false false (mkSerial tt []).

End Steady.

(** ** The demonstration [GetRN42Info]

    The function prints a greeting, builds [rn42 = RN42()] and prints the
    result of eleven methods in turn.  The model starts from the session
    [rn42] already built; what is printed is a list of lines, each line
    the list of the arguments of one [print].  An exception ends the
    function, the lines printed before it stay. *)

Definition GetRN42Info_calls : list (string * method) :=
  [("enter:", m_enter_command_mode);
   ("chip name:", m_get_chip_name);
   ("firmware version:", m_get_firmware_version);
   ("operation mode:", m_get_operation_mode);
   ("authentication mode:", m_get_authentication_mode);
   ("service profile:", m_get_service_profile);
   ("local bluetooth address:", m_get_local_bluetooth_address);
   ("connection status:", m_get_connection_status);
   ("remote bluetooth address:", m_get_remote_connected_bluetooth_address);
   ("HID device type:", m_get_HID_deviceType);
   ("leave:", m_leave_command_mode)].

(** [print(label, rn42.method())] for each pair in turn. *)
Fixpoint print_each {T} (wire_SendReceive : string -> Z -> Z -> T -> result string * T)
    (wire_Disconnect : T -> T) (steps : list (string * method)) (rn42 : RN42 T)
    : result unit * RN42 T * list (list value) :=
  match steps with
  | [] => (Return tt, rn42, [])
  | (label, m) :: rest =>
      match invoke wire_SendReceive wire_Disconnect m rn42 with
      | (Return v, rn42') =>
          let '(r, s, printed) :=
            print_each wire_SendReceive wire_Disconnect rest rn42' in
          (r, s, [VStr label; v] :: printed)
      | (Raise e, rn42') => (Raise e, rn42', [])
      end
  end.

Definition GetRN42Info {T} (wire_SendReceive : string -> Z -> Z -> T -> result string * T)
    (wire_Disconnect : T -> T) (rn42 : RN42 T)
    : result unit * RN42 T * list (list value) :=
  let '(r, s, printed) :=
    print_each wire_SendReceive wire_Disconnect GetRN42Info_calls rn42 in
  (r, s, [VStr "Hello RN-42-EK"] :: printed).

(** ** Facts about the text operations *)

Lemma startswith_refl (s : string) : Str.startswith s s = true.
Proof.
  induction s as [|c s IH]; simpl; [reflexivity|].
  rewrite Ascii.eqb_refl. exact IH.
Qed.

Lemma contains_refl (s : string) : Str.contains s s = true.
Proof. destruct s; simpl; [reflexivity|]. now rewrite Ascii.eqb_refl, startswith_refl. Qed.

(** A text is found in every text that ends with it. *)
Lemma contains_app_r (p s : string) : Str.contains s (p +:+ s) = true.
Proof.
  induction p as [|c p IH].
  - apply contains_refl.
  - change (String c p +:+ s) with (String c (p +:+ s)).
    cbn [Str.contains]. rewrite IH. apply orb_true_r.
Qed.

Lemma eqb_empty_false (s : string) : s <> "" -> String.eqb s "" = false.
Proof. intros H. now apply String.eqb_neq. Qed.

(** A non-empty [expect] different from the result is a mismatch. *)
Lemma unexpected_exact (expect expect_in result : string) :
  expect <> "" -> expect <> result -> unexpected expect expect_in result = true.
Proof.
  intros H1 H2. unfold unexpected, Str.truthy.
  rewrite (proj2 (String.eqb_neq _ _) H1), (proj2 (String.eqb_neq _ _) H2).
  reflexivity.
Qed.

Lemma disconnects_app (l1 l2 : list call) :
  disconnects (l1 ++ l2) = disconnects l1 + disconnects l2.
Proof.
  induction l1 as [|c l1 IH]; simpl; [reflexivity|].
  destruct c; simpl; rewrite IH; reflexivity.
Qed.

Lemma transmitted_app (l1 l2 : list call) :
  transmitted (l1 ++ l2) = transmitted l1 ++ transmitted l2.
Proof.
  induction l1 as [|c l1 IH]; simpl; [reflexivity|].
  destruct c; simpl; rewrite IH; reflexivity.
Qed.

(** ** The transaction executor *)

Section Executor.

Context {T : Type}.
Variable wire_SendReceive : string -> Z -> Z -> T -> result string * T.

(** A reply: the trimmed text is returned unless it is unexpected, in
    which case the error raised in the [try] block is caught by its own
    [except Exception] and replaced. *)
Lemma transact_reply command expect expect_in msg (self : RN42 T) r l' :
  wire_SendReceive (command +:+ NEWLINE) 0 RETRY (link (_serial self))
    = (Return r, l') ->
  serial_send_and_receive wire_SendReceive command expect expect_in msg self
    = (if unexpected expect expect_in (Str.strip r)
       then Raise (RN42Exception ("Failulre in " +:+ msg))
       else Return (Str.strip r),
       after_send self (command +:+ NEWLINE) l').
Proof.
  intros H.
  unfold serial_send_and_receive, try_except, bind, SendReceive, after_send.
  rewrite H.
  destruct (unexpected expect expect_in (Str.strip r)); reflexivity.
Qed.

(** An exception of the device: wrapped when it is an [Exception]. *)
Lemma transact_raise command expect expect_in msg (self : RN42 T) e l' :
  wire_SendReceive (command +:+ NEWLINE) 0 RETRY (link (_serial self))
    = (Raise e, l') ->
  serial_send_and_receive wire_SendReceive command expect expect_in msg self
    = (if isinstance_Exception e
       then Raise (RN42Exception ("Failulre in " +:+ msg))
       else Raise e,
       after_send self (command +:+ NEWLINE) l').
Proof.
  intros H.
  unfold serial_send_and_receive, try_except, bind, SendReceive, after_send.
  rewrite H.
  destruct (isinstance_Exception e); reflexivity.
Qed.

(** Whatever the outcome, a transaction makes exactly one call on the
    device and assigns no attribute. *)
Lemma transact_state command expect expect_in msg (self : RN42 T) :
  snd (serial_send_and_receive wire_SendReceive command expect expect_in msg self)
    = after_send self (command +:+ NEWLINE)
        (snd (wire_SendReceive (command +:+ NEWLINE) 0 RETRY
                (link (_serial self)))).
Proof.
  destruct (wire_SendReceive (command +:+ NEWLINE) 0 RETRY
              (link (_serial self))) as [[r|e] l'] eqn:H.
  - now rewrite (transact_reply _ _ _ _ _ _ _ H).
  - now rewrite (transact_raise _ _ _ _ _ _ _ H).
Qed.

(** Every [Exception] a transaction raises has the message
    ['Failulre in %s' % msg]: the label only. *)
Lemma transact_failure_message command expect expect_in msg (self : RN42 T) e self' :
  serial_send_and_receive wire_SendReceive command expect expect_in msg self = (Raise e, self') ->
  isinstance_Exception e = true ->
  e = RN42Exception ("Failulre in " +:+ msg).
Proof.
  intros H He.
  destruct (wire_SendReceive (command +:+ NEWLINE) 0 RETRY
              (link (_serial self))) as [[r|e0] l'] eqn:Hw.
  - rewrite (transact_reply _ _ _ _ _ _ _ Hw) in H.
    destruct (unexpected expect expect_in (Str.strip r)); congruence.
  - rewrite (transact_raise _ _ _ _ _ _ _ Hw) in H.
    destruct (isinstance_Exception e0) eqn:E0; [congruence|].
    assert (e = e0) by congruence. subst. congruence.
Qed.

End Executor.

(** C1.  The claim: a failed transaction raises one error whose message
    carries the label and the raw result.  The code formats that message
    (['Failulre in %s: %s' % (msg, result)]) inside the [try] block, so its
    own [except Exception] catches the error and raises another one with
    the label only.  Rebooting with the reply ["ERR\r\n"]: the error is
    ['Failulre in rebooting RN-42'], the text ["ERR"] is not in it. *)
Theorem serial_send_and_receive_loses_result :
  Str.strip ("ERR" +:+ NEWLINE) = "ERR"
  /\ unexpected "Reboot" "" "ERR" = true
  /\ fst (serial_send_and_receive Scripted.SendReceive
            CMD_REBOOT "Reboot" "" "rebooting RN-42" Scripted.refusing)
     = Raise (RN42Exception "Failulre in rebooting RN-42")
  /\ Str.contains "rebooting RN-42" "Failulre in rebooting RN-42" = true
  /\ Str.contains "ERR" "Failulre in rebooting RN-42" = false.
Proof. vm_compute. repeat split. Qed.

(** ** Entering command mode *)

Section Enter.

Context {T : Type}.
Variable wire_SendReceive : string -> Z -> Z -> T -> result string * T.

(** The entry token was answered with a text containing ["CMD"]. *)
Lemma enter_marker (self : RN42 T) r l' :
  wire_SendReceive CMD_ENTER_COMMAND_MODE 0 RETRY (link (_serial self))
    = (Return r, l') ->
  Str.contains "CMD" (Str.strip r) = true ->
  enter_command_mode wire_SendReceive self
    = (Return true,
       mkRN42 true (_closed self)
         (_serial (after_send self CMD_ENTER_COMMAND_MODE l'))).
Proof.
  intros H Hc.
  unfold enter_command_mode, try_except, bind, SendReceive, ret,
    set_command_mode, after_send.
  rewrite H. cbn beta iota. rewrite Hc. reflexivity.
Qed.

(** The entry token was answered with a non-empty text without ["CMD"]. *)
Lemma enter_other (self : RN42 T) r l' :
  wire_SendReceive CMD_ENTER_COMMAND_MODE 0 RETRY (link (_serial self))
    = (Return r, l') ->
  Str.contains "CMD" (Str.strip r) = false ->
  Str.strip r <> "" ->
  enter_command_mode wire_SendReceive self
    = (Raise (RN42Exception
                ("Incorrect response in entering command mode: "
                 +:+ Str.strip r)),
       after_send self CMD_ENTER_COMMAND_MODE l').
Proof.
  intros H Hc He.
  unfold enter_command_mode, try_except, bind, SendReceive, ret, raise,
    after_send.
  rewrite H. cbn beta iota. rewrite Hc, (eqb_empty_false _ He). reflexivity.
Qed.

(** The entry token was answered with nothing but white space: the
    outcome is that of the chip-name probe, run on the session as the
    first exchange left it. *)
Lemma enter_empty (self : RN42 T) r l' :
  wire_SendReceive CMD_ENTER_COMMAND_MODE 0 RETRY (link (_serial self))
    = (Return r, l') ->
  Str.strip r = "" ->
  enter_command_mode wire_SendReceive self
    = match get_chip_name wire_SendReceive
              (after_send self CMD_ENTER_COMMAND_MODE l') with
      | (Return chip_name, self') =>
          if Str.startswith chip_name CHIP_NAME
          then (Return true,
                mkRN42 true (_closed self') (_serial self'))
          else (Raise (RN42Exception
                         "Failure to get chip name in entering command mode."),
                self')
      | (Raise e, self') =>
          if isinstance_Exception e
          then (Raise (RN42Exception
                         "Failure to get chip name in entering command mode."),
                self')
          else (Raise e, self')
      end.
Proof.
  intros H He.
  unfold enter_command_mode.
  unfold bind at 1. unfold try_except at 1. unfold bind at 1.
  unfold SendReceive. rewrite H. unfold ret at 1. cbn beta iota. rewrite He.
  change (Str.contains "CMD" "") with false.
  change (String.eqb "" "") with true. cbn beta iota.
  fold (after_send self CMD_ENTER_COMMAND_MODE l').
  unfold try_except, bind.
  destruct (get_chip_name wire_SendReceive _) as [[chip_name|e] self'].
  - destruct (Str.startswith chip_name CHIP_NAME); reflexivity.
  - reflexivity.
Qed.

(** The device raised during the first exchange. *)
Lemma enter_raise (self : RN42 T) e l' :
  wire_SendReceive CMD_ENTER_COMMAND_MODE 0 RETRY (link (_serial self))
    = (Raise e, l') ->
  enter_command_mode wire_SendReceive self
    = (if isinstance_SerialTimeoutException e
       then Raise (RN42Exception "Failure in entering command mode.")
       else Raise e,
       after_send self CMD_ENTER_COMMAND_MODE l').
Proof.
  intros H.
  unfold enter_command_mode, try_except, bind, SendReceive, raise, after_send.
  rewrite H.
  destruct (isinstance_SerialTimeoutException e); reflexivity.
Qed.

(** With an empty first reply, a chip name without the prefix ['RNBT']
    always ends in the same fixed message: the error that names the chip
    is raised inside the [try] block and replaced by [except Exception]. *)
Lemma enter_wrong_chip_name (self : RN42 T) r l' n l'' :
  wire_SendReceive CMD_ENTER_COMMAND_MODE 0 RETRY (link (_serial self))
    = (Return r, l') ->
  Str.strip r = "" ->
  wire_SendReceive (CMD_GET_CHIP_NAME +:+ NEWLINE) 0 RETRY l' = (Return n, l'') ->
  Str.startswith (Str.strip n) CHIP_NAME = false ->
  fst (enter_command_mode wire_SendReceive self)
    = Raise (RN42Exception "Failure to get chip name in entering command mode.").
Proof.
  intros H He Hn Hp.
  rewrite (enter_empty _ _ _ H He).
  unfold get_chip_name.
  rewrite (transact_reply wire_SendReceive _ _ _ _
             (after_send self CMD_ENTER_COMMAND_MODE l') n l'' Hn).
  change (unexpected "" "" (Str.strip n)) with false. cbn beta iota.
  rewrite Hp. reflexivity.
Qed.

(** C4.  The three outcomes of [enter_command_mode] on the trimmed reply
    to the entry token.  The reply is of exactly one kind: it contains
    ["CMD"], it is empty, or it is another non-empty text.  With ["CMD"] in
    it the call returns [True] and [_command_mode] is [True].  When it is
    empty and the chip-name probe returns a name starting with ['RNBT'],
    the call returns [True] and [_command_mode] is [True].  Otherwise the
    call raises at once (one call on the device), the message ends with
    the unexpected reply, and [_command_mode] is what it was. *)
Theorem enter_command_mode_outcomes (self : RN42 T) r l' :
  wire_SendReceive CMD_ENTER_COMMAND_MODE 0 RETRY (link (_serial self))
    = (Return r, l') ->
  let trimmed := Str.strip r in
  let self1 := after_send self CMD_ENTER_COMMAND_MODE l' in
  ((Str.contains "CMD" trimmed = true /\ trimmed <> "")
   \/ (Str.contains "CMD" trimmed = false /\ trimmed = "")
   \/ (Str.contains "CMD" trimmed = false /\ trimmed <> ""))
  /\ (Str.contains "CMD" trimmed = true ->
      exists self',
        enter_command_mode wire_SendReceive self = (Return true, self')
        /\ _command_mode self' = true)
  /\ (trimmed = "" ->
      forall n l'',
        wire_SendReceive (CMD_GET_CHIP_NAME +:+ NEWLINE) 0 RETRY l'
          = (Return n, l'') ->
        Str.startswith (Str.strip n) CHIP_NAME = true ->
        exists self',
          enter_command_mode wire_SendReceive self = (Return true, self')
          /\ _command_mode self' = true)
  /\ (trimmed <> "" -> Str.contains "CMD" trimmed = false ->
      exists message,
        enter_command_mode wire_SendReceive self
          = (Raise (RN42Exception message), self1)
        /\ message = "Incorrect response in entering command mode: " +:+ trimmed
        /\ Str.contains trimmed message = true
        /\ _command_mode self1 = _command_mode self
        /\ calls (_serial self1)
           = calls (_serial self) ++ [CallSendReceive CMD_ENTER_COMMAND_MODE 0 RETRY]).
Proof.
  intros H trimmed self1. repeat split.
  - destruct (Str.contains "CMD" trimmed) eqn:Hc.
    + left. split; [reflexivity|]. intros E. rewrite E in Hc. discriminate.
    + destruct (String.eqb_spec trimmed ""); [right; left|right; right]; auto.
  - intros Hc. eexists. split; [exact (enter_marker _ _ _ H Hc)|reflexivity].
  - intros He n l'' Hn Hp.
    rewrite (enter_empty _ _ _ H He). unfold get_chip_name.
    rewrite (transact_reply wire_SendReceive _ _ _ _
               (after_send self CMD_ENTER_COMMAND_MODE l') n l'' Hn).
    change (unexpected "" "" (Str.strip n)) with false. cbn beta iota.
    rewrite Hp. eexists. split; reflexivity.
  - intros He Hc. eexists. split; [exact (enter_other _ _ _ H Hc He)|].
    repeat split. apply contains_app_r.
Qed.

(** C10.  When the device raises during the first exchange of
    [enter_command_mode], a [SerialTimeoutException] becomes
    [RN42Exception('Failure in entering command mode.')]; any other
    exception comes out as it is; in both cases [_command_mode] and
    [_closed] are what they were. *)
Theorem enter_command_mode_wraps_timeout_only (self : RN42 T) e l' :
  wire_SendReceive CMD_ENTER_COMMAND_MODE 0 RETRY (link (_serial self))
    = (Raise e, l') ->
  let out := enter_command_mode wire_SendReceive self in
  (isinstance_SerialTimeoutException e = true ->
   fst out = Raise (RN42Exception "Failure in entering command mode."))
  /\ (isinstance_SerialTimeoutException e = false -> fst out = Raise e)
  /\ _command_mode (snd out) = _command_mode self
  /\ _closed (snd out) = _closed self.
Proof.
  intros H out. subst out. rewrite (enter_raise _ _ _ H).
  repeat split; intros E; rewrite E; reflexivity.
Qed.

End Enter.

(** C2.  The claim: with an empty first reply and a chip name that does
    not start with ['RNBT'], the error names that chip name.  The code
    raises ['Incorrect chip name when entering command mode: %s'] inside
    the [try] block whose [except Exception] replaces it.  With the name
    ["XYZ-1234"] the error is
    ['Failure to get chip name in entering command mode.']. *)
Theorem enter_command_mode_loses_chip_name :
  Str.startswith "XYZ-1234" CHIP_NAME = false
  /\ fst (enter_command_mode Scripted.SendReceive Scripted.misnamed)
     = Raise (RN42Exception "Failure to get chip name in entering command mode.")
  /\ Str.contains "XYZ-1234"
       "Failure to get chip name in entering command mode." = false
  /\ transmitted
       (calls (_serial (snd (enter_command_mode Scripted.SendReceive
                               Scripted.misnamed))))
     = ["$$$"; "GN" +:+ NEWLINE].
Proof. vm_compute. repeat split. Qed.

(** The three outcomes on a scripted device: the replies ["CMD\r\n"],
    [""] followed by the chip name ["RNBT-A955\r\n"], and ["?\r\n"]. *)
Lemma enter_command_mode_outcomes_witness :
  (exists self',
     enter_command_mode Scripted.SendReceive
       (Scripted.new [Return ("CMD" +:+ NEWLINE)]) = (Return true, self')
     /\ _command_mode self' = true)
  /\ (exists self',
        enter_command_mode Scripted.SendReceive
          (Scripted.new [Return ""; Return ("RNBT-A955" +:+ NEWLINE)])
          = (Return true, self')
        /\ _command_mode self' = true)
  /\ (exists self' message,
        enter_command_mode Scripted.SendReceive
          (Scripted.new [Return ("?" +:+ NEWLINE)])
          = (Raise (RN42Exception message), self')
        /\ Str.contains "?" message = true
        /\ _command_mode self' = false).
Proof.
  split; [|split].
  - apply (enter_command_mode_outcomes Scripted.SendReceive
             (Scripted.new [Return ("CMD" +:+ NEWLINE)])
             ("CMD" +:+ NEWLINE) [] eq_refl).
    reflexivity.
  - apply (proj1 (proj2 (proj2
             (enter_command_mode_outcomes Scripted.SendReceive
                (Scripted.new [Return ""; Return ("RNBT-A955" +:+ NEWLINE)])
                "" [Return ("RNBT-A955" +:+ NEWLINE)] eq_refl)))
             eq_refl ("RNBT-A955" +:+ NEWLINE) [] eq_refl eq_refl).
  - destruct (proj2 (proj2 (proj2
             (enter_command_mode_outcomes Scripted.SendReceive
                (Scripted.new [Return ("?" +:+ NEWLINE)])
                ("?" +:+ NEWLINE) [] eq_refl)))
             ltac:(discriminate) eq_refl) as (message & Hrun & Hm & Hin & Hcm & _).
    exists (after_send (Scripted.new [Return ("?" +:+ NEWLINE)])
              CMD_ENTER_COMMAND_MODE []), message.
    split; [exact Hrun|]. split; [exact Hin|reflexivity].
Defined.

(** A timeout and a decoding error on a scripted device. *)
Lemma enter_command_mode_wraps_timeout_only_witness :
  fst (enter_command_mode Scripted.SendReceive
         (Scripted.new [Raise (SerialTimeoutException "Write timeout")]))
    = Raise (RN42Exception "Failure in entering command mode.")
  /\ fst (enter_command_mode Scripted.SendReceive
            (Scripted.new [Raise (OtherException "UnicodeDecodeError" "invalid start byte")]))
     = Raise (OtherException "UnicodeDecodeError" "invalid start byte").
Proof.
  split.
  - apply (enter_command_mode_wraps_timeout_only Scripted.SendReceive
             (Scripted.new [Raise (SerialTimeoutException "Write timeout")])
             (SerialTimeoutException "Write timeout") [] eq_refl).
    reflexivity.
  - apply (proj1 (proj2
             (enter_command_mode_wraps_timeout_only Scripted.SendReceive
                (Scripted.new [Raise (OtherException "UnicodeDecodeError" "invalid start byte")])
                (OtherException "UnicodeDecodeError" "invalid start byte") [] eq_refl))).
    reflexivity.
Defined.

(** ** Leaving command mode and closing *)

Section Session.

Context {T : Type}.
Variable wire_SendReceive : string -> Z -> Z -> T -> result string * T.
Variable wire_Disconnect : T -> T.

(** A transaction assigns neither [_command_mode] nor [_closed]. *)
Lemma transact_attributes command expect expect_in msg (self : RN42 T) :
  let self' := snd (serial_send_and_receive wire_SendReceive
                      command expect expect_in msg self) in
  _command_mode self' = _command_mode self /\ _closed self' = _closed self.
Proof. cbv zeta. rewrite transact_state. split; reflexivity. Qed.

Lemma transact_calls command expect expect_in msg (self : RN42 T) :
  calls (_serial (snd (serial_send_and_receive wire_SendReceive
                         command expect expect_in msg self)))
    = calls (_serial self) ++ [CallSendReceive (command +:+ NEWLINE) 0 RETRY].
Proof. rewrite transact_state. reflexivity. Qed.

Lemma leave_inside (self : RN42 T) :
  _command_mode self = true ->
  leave_command_mode wire_SendReceive self
    = match serial_send_and_receive wire_SendReceive
              CMD_LEAVE_COMMAND_MODE "END" "" "leaving command mode" self with
      | (Return _, self') =>
          (Return true, mkRN42 false (_closed self') (_serial self'))
      | (Raise e, self') => (Raise e, self')
      end.
Proof.
  intros H.
  unfold leave_command_mode, bind, get_command_mode, set_command_mode, ret.
  rewrite H.
  destruct (serial_send_and_receive wire_SendReceive _ _ _ _ self)
    as [[a|e] self']; reflexivity.
Qed.

Lemma leave_outside (self : RN42 T) :
  _command_mode self = false ->
  leave_command_mode wire_SendReceive self = (Return true, self).
Proof.
  intros H.
  unfold leave_command_mode, bind, get_command_mode, ret.
  rewrite H. reflexivity.
Qed.

(** What [leave_command_mode] does to the attributes and to the call log,
    by outcome. *)
Lemma leave_effect (self : RN42 T) :
  let out := leave_command_mode wire_SendReceive self in
  _closed (snd out) = _closed self
  /\ disconnects (calls (_serial (snd out))) = disconnects (calls (_serial self))
  /\ (raised (fst out) = true -> _command_mode (snd out) = _command_mode self
                                 /\ _command_mode self = true)
  /\ (raised (fst out) = false -> _command_mode (snd out) = false).
Proof.
  cbv zeta. destruct (_command_mode self) eqn:Hcm.
  - rewrite (leave_inside _ Hcm).
    pose proof (transact_attributes CMD_LEAVE_COMMAND_MODE "END" ""
                  "leaving command mode" self) as [Ha Hb].
    pose proof (transact_calls CMD_LEAVE_COMMAND_MODE "END" ""
                  "leaving command mode" self) as Hc.
    destruct (serial_send_and_receive wire_SendReceive _ _ _ _ self)
      as [[a|e] self']; cbn [fst snd raised _closed _command_mode _serial] in *;
      rewrite Hc, disconnects_app; cbn [disconnects];
      repeat split; try discriminate; try congruence; lia.
  - rewrite (leave_outside _ Hcm). cbn [fst snd raised].
    repeat split; intros; try discriminate; auto.
Qed.

Lemma close_closed (self : RN42 T) :
  _closed self = true ->
  close wire_SendReceive wire_Disconnect self = (Return tt, self).
Proof.
  intros H. unfold close, bind, get_closed, ret. rewrite H. reflexivity.
Qed.

Lemma close_open (self : RN42 T) :
  _closed self = false ->
  close wire_SendReceive wire_Disconnect self
    = match leave_command_mode wire_SendReceive self with
      | (Return _, self1) =>
          (Return tt,
           mkRN42 (_command_mode self1) true
             (_serial (after_disconnect wire_Disconnect self1)))
      | (Raise e, self1) => (Raise e, self1)
      end.
Proof.
  intros H.
  unfold close, bind, get_closed, Disconnect, set_closed, after_disconnect.
  rewrite H. cbn [negb].
  destruct (leave_command_mode wire_SendReceive self) as [[a|e] self1];
    reflexivity.
Qed.

(** A failed [enter_command_mode] has assigned no attribute. *)
Lemma enter_raise_attributes (self : RN42 T) e self' :
  enter_command_mode wire_SendReceive self = (Raise e, self') ->
  _command_mode self' = _command_mode self /\ _closed self' = _closed self.
Proof.
  intros Hrun.
  destruct (wire_SendReceive CMD_ENTER_COMMAND_MODE 0 RETRY
              (link (_serial self))) as [[r|e0] l'] eqn:H.
  - destruct (Str.contains "CMD" (Str.strip r)) eqn:Hc.
    + rewrite (enter_marker _ _ _ _ H Hc) in Hrun. discriminate.
    + destruct (String.eqb_spec (Str.strip r) "") as [He|He].
      * rewrite (enter_empty _ _ _ _ H He) in Hrun. unfold get_chip_name in Hrun.
        pose proof (transact_attributes CMD_GET_CHIP_NAME "" ""
                      "getting chip name"
                      (after_send self CMD_ENTER_COMMAND_MODE l')) as [Ha Hb].
        destruct (serial_send_and_receive wire_SendReceive _ _ _ _ _)
          as [[n|e1] s1]; cbn [snd] in Ha, Hb.
        -- destruct (Str.startswith n CHIP_NAME); [discriminate|].
           injection Hrun as _ <-. split; assumption.
        -- destruct (isinstance_Exception e1); injection Hrun as _ <-;
             split; assumption.
      * rewrite (enter_other _ _ _ _ H Hc He) in Hrun.
        injection Hrun as _ <-. split; reflexivity.
  - rewrite (enter_raise _ _ _ _ H) in Hrun.
    injection Hrun as _ <-. split; reflexivity.
Qed.

(** A failed [close] has assigned no attribute and has not disconnected. *)
Lemma close_raise_attributes (self : RN42 T) e self' :
  close wire_SendReceive wire_Disconnect self = (Raise e, self') ->
  _command_mode self' = _command_mode self /\ _closed self' = _closed self.
Proof.
  intros Hrun. destruct (_closed self) eqn:Hc.
  - rewrite (close_closed _ Hc) in Hrun. discriminate.
  - rewrite (close_open _ Hc) in Hrun.
    pose proof (leave_effect self) as (Ha & _ & Hb & _).
    destruct (leave_command_mode wire_SendReceive self) as [[b|e1] self1];
      [discriminate|].
    injection Hrun as _ <-. cbn [fst snd raised] in Ha, Hb.
    split; [apply Hb; reflexivity|congruence].
Qed.

(** A [close] that returns on a session that was not closed has set
    [_closed] and added one [Disconnect] to the call log. *)
Lemma close_effect (self : RN42 T) :
  _closed self = false ->
  match close wire_SendReceive wire_Disconnect self with
  | (Return _, self1) =>
      _closed self1 = true
      /\ disconnects (calls (_serial self1))
         = S (disconnects (calls (_serial self)))
  | (Raise _, self1) =>
      _closed self1 = false
      /\ disconnects (calls (_serial self1))
         = disconnects (calls (_serial self))
  end.
Proof.
  intros Hc. rewrite (close_open _ Hc).
  pose proof (leave_effect self) as (Ha & Hd & _).
  destruct (leave_command_mode wire_SendReceive self) as [[b|e] self1];
    cbn [fst snd] in *.
  - unfold after_disconnect. cbn [_closed _serial calls].
    split; [reflexivity|]. rewrite disconnects_app, Hd. cbn [disconnects]. lia.
  - split; congruence.
Qed.

(** C8.  [leave_command_mode] with [_command_mode] false returns [True]
    and leaves the session as it was: no attribute assigned, no call made
    on the device. *)
Theorem leave_command_mode_outside_is_noop (self : RN42 T) :
  _command_mode self = false ->
  let out := leave_command_mode wire_SendReceive self in
  fst out = Return true
  /\ snd out = self
  /\ calls (_serial (snd out)) = calls (_serial self).
Proof.
  intros H. cbv zeta. rewrite (leave_outside _ H). repeat split.
Qed.

(** C3, amended.  [close] on a session that is not closed first runs
    [leave_command_mode].  When that returns, [close] calls [Disconnect]
    once, sets [_closed], and returns; [_command_mode] is false.  When it
    raises, [close] raises the same error: [Disconnect] is not called and
    [_closed] stays false. *)
Theorem close_after_leave (self : RN42 T) :
  _closed self = false ->
  let left := leave_command_mode wire_SendReceive self in
  let out := close wire_SendReceive wire_Disconnect self in
  (raised (fst left) = false ->
   fst out = Return tt
   /\ _closed (snd out) = true
   /\ _command_mode (snd out) = false
   /\ calls (_serial (snd out)) = calls (_serial (snd left)) ++ [CallDisconnect]
   /\ disconnects (calls (_serial (snd out)))
      = S (disconnects (calls (_serial self))))
  /\ (raised (fst left) = true ->
      exists e,
        fst left = Raise e
        /\ fst out = Raise e
        /\ snd out = snd left
        /\ _closed (snd out) = false
        /\ _command_mode (snd out) = true
        /\ disconnects (calls (_serial (snd out)))
           = disconnects (calls (_serial self))).
Proof.
  intros Hc left out. subst left out.
  rewrite (close_open _ Hc).
  pose proof (leave_effect self) as (Ha & Hd & Hr & Hs).
  destruct (leave_command_mode wire_SendReceive self) as [[b|e] self1];
    cbn [fst snd raised] in *; split; intros E; try discriminate.
  - unfold after_disconnect. cbn [_closed _command_mode _serial calls].
    repeat split; [apply Hs; reflexivity|].
    rewrite disconnects_app, Hd. cbn [disconnects]. lia.
  - exists e. destruct (Hr eq_refl) as [Hx Hy].
    repeat split; congruence.
Qed.

(** C7, amended.  When [close] on a session that is not closed returns,
    it has called [Disconnect] exactly once, and a second [close] returns
    without an error, leaving the attributes, the device and the call log
    as they were: one [Disconnect] over the two calls. *)
Theorem close_twice (self self1 : RN42 T) :
  _closed self = false ->
  close wire_SendReceive wire_Disconnect self = (Return tt, self1) ->
  close wire_SendReceive wire_Disconnect self1 = (Return tt, self1)
  /\ _closed self1 = true
  /\ disconnects (calls (_serial self1))
     = S (disconnects (calls (_serial self))).
Proof.
  intros Hc Hrun.
  pose proof (close_effect self Hc) as Haux.
  rewrite Hrun in Haux. destruct Haux as (Hclosed & Hd).
  split; [apply close_closed; exact Hclosed|]. split; assumption.
Qed.

(** C5.  The terminator is the two bytes carriage return, line feed.
    Every transaction hands the device its command followed by the
    terminator, in one call.  [enter_command_mode] first hands it the
    three bytes ["$$$"] as they are; its only other call, if any, is the
    chip-name transaction. *)
Theorem transmitted_bytes :
  NEWLINE = String (ascii_of_nat 13) (String (ascii_of_nat 10) EmptyString)
  /\ (forall command expect expect_in msg (self : RN42 T),
        calls (_serial (snd (serial_send_and_receive wire_SendReceive
                               command expect expect_in msg self)))
        = calls (_serial self)
            ++ [CallSendReceive (command +:+ NEWLINE) 0 RETRY])
  /\ (forall self : RN42 T,
        exists rest,
          calls (_serial (snd (enter_command_mode wire_SendReceive self)))
          = calls (_serial self) ++ CallSendReceive "$$$" 0 RETRY :: rest
          /\ (rest = []
              \/ rest = [CallSendReceive ("GN" +:+ NEWLINE) 0 RETRY])).
Proof.
  split; [reflexivity|]. split; [intros; apply transact_calls|].
  intros self.
  destruct (wire_SendReceive CMD_ENTER_COMMAND_MODE 0 RETRY
              (link (_serial self))) as [[r|e0] l'] eqn:H.
  - destruct (Str.contains "CMD" (Str.strip r)) eqn:Hc.
    + rewrite (enter_marker _ _ _ _ H Hc). exists []. split; [reflexivity|now left].
    + destruct (String.eqb_spec (Str.strip r) "") as [He|He].
      * rewrite (enter_empty _ _ _ _ H He). unfold get_chip_name.
        pose proof (transact_calls CMD_GET_CHIP_NAME "" "" "getting chip name"
                      (after_send self CMD_ENTER_COMMAND_MODE l')) as Hl.
        exists [CallSendReceive ("GN" +:+ NEWLINE) 0 RETRY].
        split; [|now right].
        destruct (serial_send_and_receive wire_SendReceive _ _ _ _ _)
          as [[n|e1] s1]; cbn [snd] in Hl.
        -- destruct (Str.startswith n CHIP_NAME); cbn [snd _serial];
             rewrite Hl; cbn [after_send _serial calls];
             rewrite <- app_assoc; reflexivity.
        -- destruct (isinstance_Exception e1); cbn [snd _serial];
             rewrite Hl; cbn [after_send _serial calls];
             rewrite <- app_assoc; reflexivity.
      * rewrite (enter_other _ _ _ _ H Hc He). exists [].
        split; [reflexivity|now left].
  - rewrite (enter_raise _ _ _ _ H). exists []. split; [reflexivity|now left].
Qed.

(** C6.  A method that raises leaves [_command_mode] and [_closed] as
    they were.  In particular [leave_command_mode], called in command mode
    and answered with a text that is not ["END"] once trimmed, raises and
    [_command_mode] is still true. *)
Theorem failure_keeps_session_state :
  (forall (m : method) (self : RN42 T) e self',
      invoke wire_SendReceive wire_Disconnect m self = (Raise e, self') ->
      _command_mode self' = _command_mode self
      /\ _closed self' = _closed self)
  /\ (forall (self : RN42 T) r l',
        _command_mode self = true ->
        wire_SendReceive (CMD_LEAVE_COMMAND_MODE +:+ NEWLINE) 0 RETRY
          (link (_serial self)) = (Return r, l') ->
        Str.strip r <> "END" ->
        exists e self',
          leave_command_mode wire_SendReceive self = (Raise e, self')
          /\ _command_mode self' = true).
Proof.
  split.
  - intros m self e self' Hrun.
    destruct m; cbn [invoke] in Hrun;
      try (cbv beta delta
             [of_bool of_str of_optional bind ret
              reboot get_chip_name get_firmware_version get_operation_mode
              set_master_mode set_slave_mode get_authentication_mode
              set_authentication_open_mode set_authentication_pin_mode
              get_service_profile set_service_profile_SPP
              set_service_profile_HID get_local_bluetooth_address
              get_connection_status get_remote_connected_bluetooth_address
              get_HID_deviceType set_HID_keyboard set_HID_gamepad
              set_HID_mouse set_HID_combo set_HID_joystick] in Hrun;
           match type of Hrun with
           | context [serial_send_and_receive ?w ?c ?x ?y ?z ?s] =>
               pose proof (transact_attributes c x y z s) as [Ha Hb];
               destruct (serial_send_and_receive w c x y z s) as [[a|e1] s1];
               cbn [snd] in Ha, Hb; [discriminate|];
               injection Hrun as _ <-; split; assumption
           end).
    + unfold of_unit, bind in Hrun.
      destruct (close wire_SendReceive wire_Disconnect self)
        as [[a|e1] s1] eqn:Hc; [discriminate|].
      injection Hrun as _ <-. exact (close_raise_attributes _ _ _ Hc).
    + unfold of_bool, bind in Hrun.
      destruct (enter_command_mode wire_SendReceive self)
        as [[a|e1] s1] eqn:Hc; [discriminate|].
      injection Hrun as _ <-. exact (enter_raise_attributes _ _ _ Hc).
    + unfold of_bool, bind in Hrun.
      pose proof (leave_effect self) as (Ha & _ & Hb & _).
      destruct (leave_command_mode wire_SendReceive self)
        as [[a|e1] s1]; [discriminate|].
      injection Hrun as _ <-. cbn [fst snd raised] in Ha, Hb.
      split; [apply Hb; reflexivity|exact Ha].
  - intros self r l' Hcm Hw Hne.
    rewrite (leave_inside _ Hcm).
    rewrite (transact_reply _ _ _ _ _ _ _ _ Hw).
    rewrite (unexpected_exact "END" "" (Str.strip r));
      [|discriminate|congruence].
    eexists _, _. split; [reflexivity|exact Hcm].
Qed.

End Session.

(** C3, the claim as stated fails.  A session in command mode whose exit
    command is answered with ["ERR\r\n"]: [leave_command_mode] raises,
    [close] raises with it, [Disconnect] has not been called and
    [_closed] is still false. *)
Lemma close_stops_when_leave_fails :
  _closed Scripted.refusing = false
  /\ fst (close Scripted.SendReceive Scripted.Disconnect Scripted.refusing)
     = Raise (RN42Exception "Failulre in leaving command mode")
  /\ calls (_serial (snd (close Scripted.SendReceive Scripted.Disconnect
                            Scripted.refusing)))
     = [CallSendReceive ("---" +:+ NEWLINE) 0 2]
  /\ ~ (disconnects
          (calls (_serial (snd (close Scripted.SendReceive Scripted.Disconnect
                                  Scripted.refusing)))) = 1
        /\ _closed (snd (close Scripted.SendReceive Scripted.Disconnect
                           Scripted.refusing)) = true).
Proof.
  vm_compute. repeat split. intros [H _]. discriminate H.
Qed.

(** [close] on a scripted device, with the exit command answered by
    ["END\r\n"] and by ["ERR\r\n"]. *)
Lemma close_after_leave_witness :
  (fst (close Scripted.SendReceive Scripted.Disconnect Scripted.obliging)
   = Return tt
   /\ _closed (snd (close Scripted.SendReceive Scripted.Disconnect
                      Scripted.obliging)) = true
   /\ disconnects
        (calls (_serial (snd (close Scripted.SendReceive Scripted.Disconnect
                                Scripted.obliging)))) = 1)
  /\ (raised (fst (close Scripted.SendReceive Scripted.Disconnect
                     Scripted.refusing)) = true
      /\ _closed (snd (close Scripted.SendReceive Scripted.Disconnect
                         Scripted.refusing)) = false
      /\ disconnects
           (calls (_serial (snd (close Scripted.SendReceive Scripted.Disconnect
                                   Scripted.refusing)))) = 0).
Proof.
  split.
  - destruct (proj1 (close_after_leave Scripted.SendReceive Scripted.Disconnect
                       Scripted.obliging eq_refl) eq_refl)
      as (H1 & H2 & _ & _ & H3).
    split; [exact H1|]. split; [exact H2|exact H3].
  - destruct (proj2 (close_after_leave Scripted.SendReceive Scripted.Disconnect
                       Scripted.refusing eq_refl) eq_refl)
      as (e & _ & H1 & _ & H2 & _ & H3).
    split; [rewrite H1; reflexivity|]. split; [exact H2|exact H3].
Defined.

(** C7, the claim as stated fails.  A session in command mode whose exit
    command is answered with ["ERR\r\n"] each time: the first [close]
    raises, the second [close] runs the exit transaction again and raises
    too, and [Disconnect] has been called by neither. *)
Lemma close_twice_after_failed_leave :
  fst (close Scripted.SendReceive Scripted.Disconnect Scripted.refusing)
  = Raise (RN42Exception "Failulre in leaving command mode")
  /\ fst (close Scripted.SendReceive Scripted.Disconnect
            (snd (close Scripted.SendReceive Scripted.Disconnect
                    Scripted.refusing)))
     = Raise (RN42Exception "Failulre in leaving command mode")
  /\ calls (_serial
              (snd (close Scripted.SendReceive Scripted.Disconnect
                      (snd (close Scripted.SendReceive Scripted.Disconnect
                              Scripted.refusing)))))
     = [CallSendReceive ("---" +:+ NEWLINE) 0 2;
        CallSendReceive ("---" +:+ NEWLINE) 0 2]
  /\ ~ (disconnects
          (calls (_serial
                    (snd (close Scripted.SendReceive Scripted.Disconnect
                            (snd (close Scripted.SendReceive Scripted.Disconnect
                                    Scripted.refusing)))))) = 1
        /\ raised
             (fst (close Scripted.SendReceive Scripted.Disconnect
                     (snd (close Scripted.SendReceive Scripted.Disconnect
                             Scripted.refusing)))) = false).
Proof.
  vm_compute. repeat split. intros [H _]. discriminate H.
Qed.

(** Two [close] calls on a scripted device that answers ["END\r\n"]. *)
Lemma close_twice_witness :
  close Scripted.SendReceive Scripted.Disconnect
    (snd (close Scripted.SendReceive Scripted.Disconnect Scripted.obliging))
  = (Return tt,
     snd (close Scripted.SendReceive Scripted.Disconnect Scripted.obliging))
  /\ _closed (snd (close Scripted.SendReceive Scripted.Disconnect
                     Scripted.obliging)) = true
  /\ disconnects
       (calls (_serial (snd (close Scripted.SendReceive Scripted.Disconnect
                               Scripted.obliging)))) = 1.
Proof.
  exact (close_twice Scripted.SendReceive Scripted.Disconnect
           Scripted.obliging _ eq_refl eq_refl).
Defined.

(** [leave_command_mode] on a fresh scripted session. *)
Lemma leave_command_mode_outside_is_noop_witness :
  fst (leave_command_mode Scripted.SendReceive Scripted.misnamed) = Return true
  /\ snd (leave_command_mode Scripted.SendReceive Scripted.misnamed)
     = Scripted.misnamed
  /\ calls (_serial (snd (leave_command_mode Scripted.SendReceive
                            Scripted.misnamed))) = [].
Proof.
  exact (leave_command_mode_outside_is_noop Scripted.SendReceive
           Scripted.misnamed eq_refl).
Defined.

(** A failed [reboot] and a failed [leave_command_mode] on a scripted
    session in command mode. *)
Lemma failure_keeps_session_state_witness :
  (raised (fst (invoke Scripted.SendReceive Scripted.Disconnect m_reboot
                  Scripted.refusing)) = true
   /\ _command_mode (snd (invoke Scripted.SendReceive Scripted.Disconnect
                            m_reboot Scripted.refusing)) = true
   /\ _closed (snd (invoke Scripted.SendReceive Scripted.Disconnect
                      m_reboot Scripted.refusing)) = false)
  /\ (exists e self',
        leave_command_mode Scripted.SendReceive Scripted.refusing
        = (Raise e, self')
        /\ _command_mode self' = true).
Proof.
  destruct (failure_keeps_session_state Scripted.SendReceive Scripted.Disconnect)
    as [Hall Hleave].
  split.
  - split; [reflexivity|].
    exact (Hall m_reboot Scripted.refusing
             (RN42Exception "Failulre in rebooting RN-42") _ eq_refl).
  - apply (Hleave Scripted.refusing ("ERR" +:+ NEWLINE)
             [Return ("ERR" +:+ NEWLINE)] eq_refl eq_refl).
    discriminate.
Defined.

(** ** The decoding tables *)

(** A code that is no key of a [dict] literal is absent from it. *)
Lemma dict_get_absent (entries : list (string * string)) (code : string) :
  ~ In code (map fst entries) -> dict_get (list_to_map entries) code = None.
Proof.
  intros H. unfold dict_get. apply not_elem_of_list_to_map_1.
  intros Hin. apply H. apply list_elem_of_In. exact Hin.
Qed.

Section Getters.

Context {T : Type}.
Variable wire_SendReceive : string -> Z -> Z -> T -> result string * T.

(** A transaction without expectation returns the trimmed reply. *)
Lemma transact_unchecked command msg (self : RN42 T) r l' :
  wire_SendReceive (command +:+ NEWLINE) 0 RETRY (link (_serial self))
    = (Return r, l') ->
  serial_send_and_receive wire_SendReceive command "" "" msg self
    = (Return (Str.strip r), after_send self (command +:+ NEWLINE) l').
Proof. intros H. rewrite (transact_reply _ _ _ _ _ _ _ _ H). reflexivity. Qed.

Lemma get_operation_mode_decodes (self : RN42 T) r l' :
  wire_SendReceive ("GM" +:+ NEWLINE) 0 RETRY (link (_serial self))
    = (Return r, l') ->
  fst (get_operation_mode wire_SendReceive self)
    = Return (dict_get OPERATION_MODE (Str.strip r)).
Proof.
  intros H. unfold get_operation_mode, bind.
  rewrite (transact_unchecked _ _ _ _ _ H). reflexivity.
Qed.

Lemma get_authentication_mode_decodes (self : RN42 T) r l' :
  wire_SendReceive ("GA" +:+ NEWLINE) 0 RETRY (link (_serial self))
    = (Return r, l') ->
  fst (get_authentication_mode wire_SendReceive self)
    = Return (dict_get AUTHENTICATION_MODE (Str.strip r)).
Proof.
  intros H. unfold get_authentication_mode, bind.
  rewrite (transact_unchecked _ _ _ _ _ H). reflexivity.
Qed.

Lemma get_service_profile_decodes (self : RN42 T) r l' :
  wire_SendReceive ("G~" +:+ NEWLINE) 0 RETRY (link (_serial self))
    = (Return r, l') ->
  fst (get_service_profile wire_SendReceive self)
    = Return (dict_get SERVICE_PROFILE (Str.strip r)).
Proof.
  intros H. unfold get_service_profile, bind.
  rewrite (transact_unchecked _ _ _ _ _ H). reflexivity.
Qed.

Lemma get_HID_deviceType_decodes (self : RN42 T) r l' :
  wire_SendReceive ("GH" +:+ NEWLINE) 0 RETRY (link (_serial self))
    = (Return r, l') ->
  fst (get_HID_deviceType wire_SendReceive self)
    = Return (dict_get HID_DEVICE_TYPE (Str.strip r)).
Proof.
  intros H. unfold get_HID_deviceType, bind.
  rewrite (transact_unchecked _ _ _ _ _ H). reflexivity.
Qed.

(** C9.  Each table maps the documented codes to the documented labels
    and no other code; a getter whose transaction is answered returns the
    table's value for the trimmed reply, so [None] for an unknown code,
    without raising. *)
Theorem decoding_tables :
  (dict_get OPERATION_MODE "Slav" = Some "SLAVE"
   /\ dict_get OPERATION_MODE "Mstr" = Some "MASTER"
   /\ dict_get OPERATION_MODE "Trig" = Some "TRIGGER"
   /\ dict_get OPERATION_MODE "Auto" = Some "AUTO"
   /\ dict_get OPERATION_MODE "DTR" = Some "DTR"
   /\ dict_get OPERATION_MODE "Any" = Some "ANY"
   /\ dict_get OPERATION_MODE "Pair" = Some "PAIR"
   /\ forall code,
        ~ In code ["Slav"; "Mstr"; "Trig"; "Auto"; "DTR"; "Any"; "Pair"] ->
        dict_get OPERATION_MODE code = None)
  /\ (dict_get AUTHENTICATION_MODE "0" = Some "OPEN"
      /\ dict_get AUTHENTICATION_MODE "1" = Some "SSP_KEYBOARD"
      /\ dict_get AUTHENTICATION_MODE "2" = Some "SSP_JUST_WORK"
      /\ dict_get AUTHENTICATION_MODE "4" = Some "PIN_CODE"
      /\ forall code,
           ~ In code ["0"; "1"; "2"; "4"] ->
           dict_get AUTHENTICATION_MODE code = None)
  /\ (dict_get SERVICE_PROFILE "0" = Some "SPP"
      /\ dict_get SERVICE_PROFILE "1" = Some "DUN_DCE"
      /\ dict_get SERVICE_PROFILE "2" = Some "DUN_DTE"
      /\ dict_get SERVICE_PROFILE "3" = Some "MDM_SPP"
      /\ dict_get SERVICE_PROFILE "4" = Some "SPP_AND_DUN_DCE"
      /\ dict_get SERVICE_PROFILE "5" = Some "APL"
      /\ dict_get SERVICE_PROFILE "6" = Some "HID"
      /\ forall code,
           ~ In code ["0"; "1"; "2"; "3"; "4"; "5"; "6"] ->
           dict_get SERVICE_PROFILE code = None)
  /\ (dict_get HID_DEVICE_TYPE "0200" = Some "KEYBOARD"
      /\ dict_get HID_DEVICE_TYPE "0210" = Some "GAMEPAD"
      /\ dict_get HID_DEVICE_TYPE "0220" = Some "MOUSE"
      /\ dict_get HID_DEVICE_TYPE "0230" = Some "COMBO"
      /\ dict_get HID_DEVICE_TYPE "0240" = Some "JOYSTICK"
      /\ dict_get HID_DEVICE_TYPE "0250" = Some "DIGITIZER"
      /\ dict_get HID_DEVICE_TYPE "0260" = Some "SENSOR"
      /\ dict_get HID_DEVICE_TYPE "0270" = Some "USECFG"
      /\ forall code,
           ~ In code ["0200"; "0210"; "0220"; "0230"; "0240"; "0250";
                      "0260"; "0270"] ->
           dict_get HID_DEVICE_TYPE code = None)
  /\ (forall (self : RN42 T) r l',
        wire_SendReceive ("GM" +:+ NEWLINE) 0 RETRY (link (_serial self))
          = (Return r, l') ->
        fst (get_operation_mode wire_SendReceive self)
          = Return (dict_get OPERATION_MODE (Str.strip r)))
  /\ (forall (self : RN42 T) r l',
        wire_SendReceive ("GA" +:+ NEWLINE) 0 RETRY (link (_serial self))
          = (Return r, l') ->
        fst (get_authentication_mode wire_SendReceive self)
          = Return (dict_get AUTHENTICATION_MODE (Str.strip r)))
  /\ (forall (self : RN42 T) r l',
        wire_SendReceive ("G~" +:+ NEWLINE) 0 RETRY (link (_serial self))
          = (Return r, l') ->
        fst (get_service_profile wire_SendReceive self)
          = Return (dict_get SERVICE_PROFILE (Str.strip r)))
  /\ (forall (self : RN42 T) r l',
        wire_SendReceive ("GH" +:+ NEWLINE) 0 RETRY (link (_serial self))
          = (Return r, l') ->
        fst (get_HID_deviceType wire_SendReceive self)
          = Return (dict_get HID_DEVICE_TYPE (Str.strip r))).
Proof.
  repeat match goal with
         | |- _ /\ _ => split
         | |- dict_get _ _ = Some _ => vm_compute; reflexivity
         | |- forall code, ~ In code _ -> _ =>
             intros code Hc; apply dict_get_absent; exact Hc
         end.
  - exact get_operation_mode_decodes.
  - exact get_authentication_mode_decodes.
  - exact get_service_profile_decodes.
  - exact get_HID_deviceType_decodes.
Qed.

End Getters.

(** The code ["Slave"] is no key of the operation-mode table, and a
    device answering ["Slave\r\n"] makes [get_operation_mode] return
    [None]. *)
Lemma decoding_tables_witness :
  dict_get OPERATION_MODE "Slave" = None
  /\ fst (get_operation_mode Scripted.SendReceive
            (Scripted.in_command_mode [Return ("Slave" +:+ NEWLINE)]))
     = Return None.
Proof.
  destruct (decoding_tables Scripted.SendReceive)
    as ((_ & _ & _ & _ & _ & _ & _ & Habsent) & _ & _ & _ & Hget & _).
  assert (dict_get OPERATION_MODE "Slave" = None) as Hnone.
  { apply Habsent. simpl.
    intros [H|[H|[H|[H|[H|[H|[H|[]]]]]]]]; discriminate H. }
  split; [exact Hnone|].
  rewrite (Hget (Scripted.in_command_mode [Return ("Slave" +:+ NEWLINE)])
             ("Slave" +:+ NEWLINE) [] eq_refl).
  change (Str.strip ("Slave" +:+ NEWLINE)) with "Slave".
  rewrite Hnone. reflexivity.
Defined.

(** ** Further properties of the transaction executor *)

Lemma lstrip_first (s : string) (c : ascii) :
  first_char (Str.lstrip s) = Some c -> Str.isspace c = false.
Proof.
  induction s as [|a s IH]; cbn [Str.lstrip first_char]; [discriminate|].
  destruct (Str.isspace a) eqn:Ha; [exact IH|].
  cbn [first_char]. intros [= <-]. exact Ha.
Qed.

Lemma rstrip_last (s : string) (c : ascii) :
  last_char (Str.rstrip s) = Some c -> Str.isspace c = false.
Proof.
  induction s as [|a s IH]; cbn [Str.rstrip last_char]; [discriminate|].
  destruct (Str.rstrip s) as [|b t] eqn:E.
  - destruct (Str.isspace a) eqn:Ha; cbn [last_char]; [discriminate|].
    intros [= <-]. exact Ha.
  - cbn [last_char]. exact IH.
Qed.

Lemma rstrip_first (s : string) (c : ascii) :
  first_char (Str.rstrip s) = Some c -> first_char s = Some c.
Proof.
  destruct s as [|a s]; cbn [Str.rstrip first_char]; [discriminate|].
  destruct (Str.rstrip s); [destruct (Str.isspace a)|];
    cbn [first_char]; congruence.
Qed.

Lemma strip_trimmed (s : string) : trimmed (Str.strip s).
Proof.
  split; intros c H.
  - apply (lstrip_first s). apply rstrip_first. exact H.
  - apply (rstrip_last (Str.lstrip s)). exact H.
Qed.

Lemma rstrip_id (s : string) :
  (forall c, last_char s = Some c -> Str.isspace c = false) ->
  Str.rstrip s = s.
Proof.
  induction s as [|a s IH]; intros H; [reflexivity|].
  cbn [Str.rstrip]. destruct s as [|b t].
  - cbn [Str.rstrip]. rewrite (H a eq_refl). reflexivity.
  - rewrite IH; [reflexivity|]. intros c Hc. apply H. exact Hc.
Qed.

Lemma trimmed_strip_id (s : string) : trimmed s -> Str.strip s = s.
Proof.
  intros [Hf Hl]. unfold Str.strip.
  assert (Str.lstrip s = s) as ->.
  { destruct s as [|a s]; [reflexivity|].
    cbn [Str.lstrip]. rewrite (Hf a eq_refl). reflexivity. }
  apply rstrip_id. exact Hl.
Qed.

(** When no mismatch is found, the expectations hold, and conversely. *)
Lemma unexpected_false_iff (expect expect_in result : string) :
  unexpected expect expect_in result = false
  <-> (expect = "" \/ expect = result)
      /\ (expect_in = "" \/ Str.contains expect_in result = true).
Proof.
  unfold unexpected, Str.truthy.
  destruct (String.eqb_spec expect "") as [E1|E1];
    destruct (String.eqb_spec expect result) as [E2|E2];
    destruct (String.eqb_spec expect_in "") as [E3|E3];
    destruct (Str.contains expect_in result) eqn:E4;
    cbn [negb andb orb]; split; try tauto; try discriminate;
    intros [[?|?] [?|?]]; congruence.
Qed.

Section Transactions.

Context {T : Type}.
Variable wire_SendReceive : string -> Z -> Z -> T -> result string * T.

(** X1.  When the device answers, a transaction returns exactly when the
    trimmed answer meets both expectations (an empty expectation is none),
    the value returned is the trimmed answer, and otherwise the error is
    [RN42Exception('Failulre in ' + msg)]. *)
Theorem serial_send_and_receive_returns_iff
    command expect expect_in msg (self : RN42 T) r l' :
  wire_SendReceive (command +:+ NEWLINE) 0 RETRY (link (_serial self))
    = (Return r, l') ->
  let accepted :=
    (expect = "" \/ expect = Str.strip r)
    /\ (expect_in = "" \/ Str.contains expect_in (Str.strip r) = true) in
  let out := serial_send_and_receive wire_SendReceive
               command expect expect_in msg self in
  (accepted -> fst out = Return (Str.strip r))
  /\ (~ accepted -> fst out = Raise (RN42Exception ("Failulre in " +:+ msg)))
  /\ (forall result, fst out = Return result -> accepted /\ result = Str.strip r).
Proof.
  intros H accepted out. subst out.
  rewrite (transact_reply _ _ _ _ _ _ _ _ H). cbn [fst].
  pose proof (unexpected_false_iff expect expect_in (Str.strip r)) as Hiff.
  fold accepted in Hiff.
  destruct (unexpected expect expect_in (Str.strip r)).
  - repeat split; try discriminate.
    intros Ha. apply Hiff in Ha. discriminate.
  - repeat split; try (apply Hiff; reflexivity); try congruence.
    intros Hn. exfalso. apply Hn, Hiff. reflexivity.
Qed.

(** X2.  The text a transaction returns has no white space at either
    end, so trimming it again changes nothing. *)
Theorem serial_send_and_receive_result_trimmed
    command expect expect_in msg (self self' : RN42 T) result :
  serial_send_and_receive wire_SendReceive command expect expect_in msg self
    = (Return result, self') ->
  trimmed result /\ Str.strip result = result.
Proof.
  intros Hrun.
  destruct (wire_SendReceive (command +:+ NEWLINE) 0 RETRY
              (link (_serial self))) as [[r|e0] l'] eqn:Hw.
  - rewrite (transact_reply _ _ _ _ _ _ _ _ Hw) in Hrun.
    destruct (unexpected expect expect_in (Str.strip r)); [discriminate|].
    injection Hrun as <- _.
    split; [apply strip_trimmed|]. apply trimmed_strip_id, strip_trimmed.
  - rewrite (transact_raise _ _ _ _ _ _ _ _ Hw) in Hrun.
    destruct (isinstance_Exception e0); discriminate.
Qed.

(** X3.  A transaction never returns when the device raises.  What it
    raises is [RN42Exception('Failulre in ' + msg)], unless the device
    raised an exception that is no [Exception], which comes out as it
    is. *)
Theorem serial_send_and_receive_raises
    command expect expect_in msg (self : RN42 T) :
  let w := wire_SendReceive (command +:+ NEWLINE) 0 RETRY
             (link (_serial self)) in
  let out := serial_send_and_receive wire_SendReceive
               command expect expect_in msg self in
  (forall e0, fst w = Raise e0 ->
     fst out = if isinstance_Exception e0
               then Raise (RN42Exception ("Failulre in " +:+ msg))
               else Raise e0)
  /\ (forall e, fst out = Raise e ->
        e = RN42Exception ("Failulre in " +:+ msg)
        \/ (isinstance_Exception e = false /\ fst w = Raise e)).
Proof.
  cbv zeta.
  destruct (wire_SendReceive (command +:+ NEWLINE) 0 RETRY
              (link (_serial self))) as [[r|e0] l'] eqn:Hw; cbn [fst].
  - rewrite (transact_reply _ _ _ _ _ _ _ _ Hw). cbn [fst].
    split; [discriminate|].
    destruct (unexpected expect expect_in (Str.strip r)); [|discriminate].
    intros e [= <-]. left. reflexivity.
  - rewrite (transact_raise _ _ _ _ _ _ _ _ Hw). cbn [fst].
    split.
    + intros e1 [= <-]. destruct (isinstance_Exception e0); reflexivity.
    + destruct (isinstance_Exception e0) eqn:He; intros e [= <-].
      * left. reflexivity.
      * right. split; [exact He|reflexivity].
Qed.

End Transactions.

(** ** The one-transaction methods *)

(** The first field of a comma-separated text is ["1"] exactly when the
    text is ["1"] or starts with ["1,"]. *)
Lemma split_comma_0_is_1 (s : string) :
  String.eqb (Str.split_comma_0 s) "1" = true
  <-> s = "1" \/ Str.startswith s "1," = true.
Proof.
  destruct s as [|a s]; cbn [Str.split_comma_0 Str.startswith].
  - split; [discriminate|intros [H|H]; discriminate].
  - destruct (Ascii.eqb_spec a ",") as [->|Ha].
    + split; [discriminate|intros [H|H]; discriminate].
    + rewrite (Ascii.eqb_sym "1"%char a).
      destruct (Ascii.eqb_spec a "1") as [->|H1].
      * destruct s as [|b t]; cbn [Str.split_comma_0 Str.startswith andb].
        -- split; [left; reflexivity|reflexivity].
        -- rewrite (Ascii.eqb_sym ","%char b).
           destruct (Ascii.eqb_spec b ",") as [->|Hb]; cbn [andb].
           ++ split; [right; destruct t; reflexivity|reflexivity].
           ++ split; [discriminate|intros [H|H]; discriminate].
      * cbn [andb]. split.
        -- intros H. apply String.eqb_eq in H. congruence.
        -- intros [H|H]; [congruence|discriminate].
Qed.

Section Operations.

Context {T : Type}.
Variable wire_SendReceive : string -> Z -> Z -> T -> result string * T.
Variable wire_Disconnect : T -> T.

(** A transaction with an exact expectation only. *)
Lemma transact_exact command expect msg (self : RN42 T) r l' :
  expect <> "" ->
  wire_SendReceive (command +:+ NEWLINE) 0 RETRY (link (_serial self))
    = (Return r, l') ->
  serial_send_and_receive wire_SendReceive command expect "" msg self
    = (if String.eqb expect (Str.strip r)
       then Return (Str.strip r)
       else Raise (RN42Exception ("Failulre in " +:+ msg)),
       after_send self (command +:+ NEWLINE) l').
Proof.
  intros He H. rewrite (transact_reply _ _ _ _ _ _ _ _ H).
  unfold unexpected, Str.truthy. rewrite (eqb_empty_false _ He).
  destruct (String.eqb expect (Str.strip r)); reflexivity.
Qed.

(** X4.  Each of the eleven setters sends its command and returns [True]
    exactly when the trimmed answer is ["AOK"]; any other answer raises
    [RN42Exception] with the setter's label. *)
Theorem setters_expect_AOK m command label (self : RN42 T) r l' :
  In (m, (command, label)) setters ->
  wire_SendReceive (command +:+ NEWLINE) 0 RETRY (link (_serial self))
    = (Return r, l') ->
  let out := invoke wire_SendReceive wire_Disconnect m self in
  (Str.strip r = "AOK" -> fst out = Return (VBool true))
  /\ (Str.strip r <> "AOK" ->
      fst out = Raise (RN42Exception ("Failulre in " +:+ label)))
  /\ snd out = after_send self (command +:+ NEWLINE) l'.
Proof.
  intros Hin H out. subst out.
  assert (AOK <> "") as Hne by discriminate.
  pose proof (transact_exact command AOK label self r l' Hne H) as Ht.
  assert (invoke wire_SendReceive wire_Disconnect m self
          = match serial_send_and_receive wire_SendReceive
                    command AOK "" label self with
            | (Return _, s) => (Return (VBool true), s)
            | (Raise e, s) => (Raise e, s)
            end) as ->.
  { unfold setters in Hin. cbn [In] in Hin.
    repeat (destruct Hin as [Hin|Hin];
            [injection Hin as <- <- <-; cbn [invoke];
             unfold of_bool, bind, ret;
             match goal with
             | |- context [serial_send_and_receive ?w ?c ?x ?y ?z ?s] =>
                 cbv beta delta
                   [set_master_mode set_slave_mode
                    set_authentication_open_mode set_authentication_pin_mode
                    set_service_profile_SPP set_service_profile_HID
                    set_HID_keyboard set_HID_gamepad set_HID_mouse
                    set_HID_combo set_HID_joystick bind ret];
                 destruct (serial_send_and_receive w c x y z s) as [[a|e] s1];
                 reflexivity
             end|]).
    destruct Hin. }
  rewrite Ht. unfold AOK.
  destruct (String.eqb_spec "AOK" (Str.strip r)) as [E|E]; cbn [fst snd];
    repeat split; congruence.
Qed.

(** X5.  [reboot] returns [True] exactly when the trimmed answer is
    ["Reboot"]: the expectation is an exact one, so an answer that only
    contains ["Reboot"] raises. *)
Theorem reboot_expects_exact_Reboot (self : RN42 T) r l' :
  wire_SendReceive ("R,1" +:+ NEWLINE) 0 RETRY (link (_serial self))
    = (Return r, l') ->
  let out := reboot wire_SendReceive self in
  (Str.strip r = "Reboot" -> fst out = Return true)
  /\ (Str.strip r <> "Reboot" ->
      fst out = Raise (RN42Exception "Failulre in rebooting RN-42")).
Proof.
  intros H out. subst out. unfold reboot, bind, ret.
  rewrite (transact_exact CMD_REBOOT "Reboot" "rebooting RN-42" self r l'
             ltac:(discriminate) H).
  destruct (String.eqb_spec "Reboot" (Str.strip r)) as [E|E]; cbn [fst];
    split; intros; first [reflexivity|congruence].
Qed.

(** X6.  [get_firmware_version] returns the trimmed answer exactly when
    it contains ["Ver"], and raises otherwise. *)
Theorem get_firmware_version_expects_Ver (self : RN42 T) r l' :
  wire_SendReceive ("V" +:+ NEWLINE) 0 RETRY (link (_serial self))
    = (Return r, l') ->
  let out := get_firmware_version wire_SendReceive self in
  (Str.contains "Ver" (Str.strip r) = true -> fst out = Return (Str.strip r))
  /\ (Str.contains "Ver" (Str.strip r) = false ->
      fst out = Raise (RN42Exception "Failulre in getting firmware version")).
Proof.
  intros H out. subst out. unfold get_firmware_version.
  rewrite (transact_reply _ _ _ _ _ _ _ _ H). unfold unexpected.
  change (Str.truthy "") with false. change (Str.truthy "Ver") with true.
  cbn [andb orb fst].
  destruct (Str.contains "Ver" (Str.strip r)); cbn [negb];
    split; intros; first [reflexivity|congruence].
Qed.

(** X7.  [get_connection_status] never raises on an answer: it returns
    [True] exactly when the trimmed answer is ["1"] or starts with
    ["1,"], and [False] for anything else, the empty answer included. *)
Theorem get_connection_status_decodes (self : RN42 T) r l' :
  wire_SendReceive ("GK" +:+ NEWLINE) 0 RETRY (link (_serial self))
    = (Return r, l') ->
  exists connected,
    fst (get_connection_status wire_SendReceive self) = Return connected
    /\ (connected = true
        <-> Str.strip r = "1" \/ Str.startswith (Str.strip r) "1," = true).
Proof.
  intros H. unfold get_connection_status, bind, ret.
  rewrite (transact_reply _ _ _ _ _ _ _ _ H).
  change (unexpected "" "" (Str.strip r)) with false. cbn beta iota.
  eexists. split; [reflexivity|]. apply split_comma_0_is_1.
Qed.

(** X8.  [get_remote_connected_bluetooth_address] returns [None] exactly
    when the trimmed answer is twelve zeros and the trimmed answer
    otherwise, so it never returns the twelve zeros.  Its transaction
    carries the label of [get_local_bluetooth_address]: when the device
    raises an [Exception], both methods raise the same error. *)
Theorem get_remote_connected_bluetooth_address_decodes (self : RN42 T) :
  (forall r l',
      wire_SendReceive ("GF" +:+ NEWLINE) 0 RETRY (link (_serial self))
        = (Return r, l') ->
      fst (get_remote_connected_bluetooth_address wire_SendReceive self)
        = Return (if String.eqb (Str.strip r) "000000000000"
                  then None else Some (Str.strip r)))
  /\ fst (get_remote_connected_bluetooth_address wire_SendReceive self)
     <> Return (Some "000000000000")
  /\ (forall e e' l1 l2,
        wire_SendReceive ("GF" +:+ NEWLINE) 0 RETRY (link (_serial self))
          = (Raise e, l1) ->
        wire_SendReceive ("GB" +:+ NEWLINE) 0 RETRY (link (_serial self))
          = (Raise e', l2) ->
        isinstance_Exception e = true -> isinstance_Exception e' = true ->
        fst (get_remote_connected_bluetooth_address wire_SendReceive self)
          = Raise (RN42Exception "Failulre in getting local bluetooth address")
        /\ fst (get_local_bluetooth_address wire_SendReceive self)
           = Raise (RN42Exception "Failulre in getting local bluetooth address")).
Proof.
  split; [|split].
  - intros r l' H. unfold get_remote_connected_bluetooth_address, bind, ret.
    rewrite (transact_reply _ _ _ _ _ _ _ _ H). reflexivity.
  - unfold get_remote_connected_bluetooth_address, bind, ret.
    destruct (serial_send_and_receive wire_SendReceive _ _ _ _ self)
      as [[result|e] s1]; cbn [fst]; [|discriminate].
    destruct (String.eqb_spec result "000000000000"); congruence.
  - intros e e' l1 l2 H1 H2 He He'.
    unfold get_remote_connected_bluetooth_address,
      get_local_bluetooth_address, bind.
    rewrite (transact_raise _ _ _ _ _ _ _ _ H1),
      (transact_raise _ _ _ _ _ _ _ _ H2), He, He'.
    split; reflexivity.
Qed.

End Operations.

(** ** What the methods do to the session and to the call log *)

Section Frame.

Context {T : Type}.
Variable wire_SendReceive : string -> Z -> Z -> T -> result string * T.
Variable wire_Disconnect : T -> T.

(** A method that does not manage the session is one transaction
    followed by a computation on its result. *)
Lemma plain_shape (m : method) :
  manages_session m = false ->
  exists command expect expect_in msg (g : string -> value),
    forall self : RN42 T,
      invoke wire_SendReceive wire_Disconnect m self
      = match serial_send_and_receive wire_SendReceive
                command expect expect_in msg self with
        | (Return a, s) => (Return (g a), s)
        | (Raise e, s) => (Raise e, s)
        end.
Proof.
  intros Hm.
  destruct m; try discriminate Hm; cbn [invoke];
    cbv beta delta
      [of_bool of_str of_optional bind ret
       reboot get_chip_name get_firmware_version get_operation_mode
       set_master_mode set_slave_mode get_authentication_mode
       set_authentication_open_mode set_authentication_pin_mode
       get_service_profile set_service_profile_SPP
       set_service_profile_HID get_local_bluetooth_address
       get_connection_status get_remote_connected_bluetooth_address
       get_HID_deviceType set_HID_keyboard set_HID_gamepad
       set_HID_mouse set_HID_combo set_HID_joystick];
    match goal with
    | |- context [serial_send_and_receive _ ?c ?x ?y ?z] =>
        exists c, x, y, z; eexists; intros self;
        destruct (serial_send_and_receive wire_SendReceive c x y z self)
          as [[a|e] s1]; reflexivity
    end.
Qed.


(** The session after [enter_command_mode], whatever its outcome. *)
Lemma enter_state (self : RN42 T) :
  exists cm l new,
    snd (enter_command_mode wire_SendReceive self)
    = mkRN42 cm (_closed self) (mkSerial l (calls (_serial self) ++ new))
    /\ (new = [CallSendReceive "$$$" 0 RETRY]
        \/ new = [CallSendReceive "$$$" 0 RETRY;
                  CallSendReceive ("GN" +:+ NEWLINE) 0 RETRY]).
Proof.
  destruct (wire_SendReceive CMD_ENTER_COMMAND_MODE 0 RETRY
              (link (_serial self))) as [[r|e0] l'] eqn:H.
  - destruct (Str.contains "CMD" (Str.strip r)) eqn:Hc.
    + rewrite (enter_marker _ _ _ _ H Hc).
      eexists _, _, _. split; [reflexivity|]. left. reflexivity.
    + destruct (String.eqb_spec (Str.strip r) "") as [He|He].
      * rewrite (enter_empty _ _ _ _ H He). unfold get_chip_name.
        pose proof (transact_state wire_SendReceive CMD_GET_CHIP_NAME "" ""
                      "getting chip name"
                      (after_send self CMD_ENTER_COMMAND_MODE l')) as Hs.
        destruct (serial_send_and_receive wire_SendReceive _ _ _ _ _)
          as [[n|e1] s1]; cbn [snd] in Hs; subst s1.
        -- destruct (Str.startswith n CHIP_NAME); cbn [snd];
             unfold after_send; cbn [_command_mode _closed _serial calls link];
             rewrite <- app_assoc;
             eexists _, _, _; (split; [reflexivity|]); right; reflexivity.
        -- destruct (isinstance_Exception e1); cbn [snd];
             unfold after_send; cbn [_command_mode _closed _serial calls link];
             rewrite <- app_assoc;
             eexists _, _, _; (split; [reflexivity|]); right; reflexivity.
      * rewrite (enter_other _ _ _ _ H Hc He).
        eexists _, _, _. split; [reflexivity|]. left. reflexivity.
  - rewrite (enter_raise _ _ _ _ H).
    eexists _, _, _. split; [reflexivity|]. left. reflexivity.
Qed.

(** The session after [leave_command_mode], whatever its outcome. *)
Lemma leave_state (self : RN42 T) :
  exists cm l new,
    snd (leave_command_mode wire_SendReceive self)
    = mkRN42 cm (_closed self) (mkSerial l (calls (_serial self) ++ new))
    /\ (new = [] \/ new = [CallSendReceive ("---" +:+ NEWLINE) 0 RETRY]).
Proof.
  destruct (_command_mode self) eqn:Hcm.
  - rewrite (leave_inside _ _ Hcm).
    pose proof (transact_state wire_SendReceive CMD_LEAVE_COMMAND_MODE "END" ""
                  "leaving command mode" self) as Hs.
    destruct (serial_send_and_receive wire_SendReceive _ _ _ _ _)
      as [[n|e1] s1]; cbn [snd] in Hs; subst s1; cbn [snd];
      unfold after_send; cbn [_command_mode _closed _serial];
      eexists _, _, _; (split; [reflexivity|]); right; reflexivity.
  - rewrite (leave_outside _ _ Hcm). cbn [snd].
    exists false, (link (_serial self)), [].
    split; [|left; reflexivity].
    rewrite app_nil_r. destruct self as [cm cl [l cs]].
    cbn in Hcm |- *. rewrite Hcm. reflexivity.
Qed.

(** The session after [close], whatever its outcome. *)
Lemma close_state (self : RN42 T) :
  exists cm cl l new,
    snd (close wire_SendReceive wire_Disconnect self)
    = mkRN42 cm cl (mkSerial l (calls (_serial self) ++ new))
    /\ (new = []
        \/ new = [CallSendReceive ("---" +:+ NEWLINE) 0 RETRY]
        \/ new = [CallDisconnect]
        \/ new = [CallSendReceive ("---" +:+ NEWLINE) 0 RETRY; CallDisconnect]).
Proof.
  destruct (_closed self) eqn:Hc.
  - rewrite (close_closed _ _ _ Hc). cbn [snd].
    exists (_command_mode self), true, (link (_serial self)), [].
    split; [|left; reflexivity].
    rewrite app_nil_r. destruct self as [cm cl [l cs]].
    cbn in Hc |- *. rewrite Hc. reflexivity.
  - rewrite (close_open _ _ _ Hc).
    destruct (leave_state self) as (cm & l & new & Hs & Hnew).
    destruct (leave_command_mode wire_SendReceive self) as [[b|e] s1];
      cbn [snd] in Hs; subst s1; cbn [snd].
    + unfold after_disconnect. cbn [_command_mode _closed _serial calls link].
      rewrite <- app_assoc.
      eexists _, _, _, _. split; [reflexivity|].
      destruct Hnew as [->| ->]; cbn [app]; auto.
    + eexists _, _, _, _. split; [reflexivity|].
      destruct Hnew as [->| ->]; auto.
Qed.

(** The session after a method that does not manage it: the same
    attributes, one more call. *)
Lemma plain_state (m : method) (self : RN42 T) :
  manages_session m = false ->
  exists command,
    snd (invoke wire_SendReceive wire_Disconnect m self)
    = after_send self (command +:+ NEWLINE)
        (snd (wire_SendReceive (command +:+ NEWLINE) 0 RETRY
                (link (_serial self)))).
Proof.
  intros Hm.
  destruct (plain_shape m Hm) as (command & expect & expect_in & msg & g & Hg).
  exists command. rewrite Hg.
  rewrite <- (transact_state wire_SendReceive command expect expect_in msg self).
  destruct (serial_send_and_receive wire_SendReceive _ _ _ _ self)
    as [[a|e] s1]; reflexivity.
Qed.

(** The session after a method that manages it. *)
Lemma managed_state (m : method) (self : RN42 T) :
  manages_session m = true ->
  exists cm cl l new,
    snd (invoke wire_SendReceive wire_Disconnect m self)
    = mkRN42 cm cl (mkSerial l (calls (_serial self) ++ new))
    /\ Forall wire_format new
    /\ length new <= 2
    /\ (m <> m_close -> cl = _closed self /\ disconnects new = 0).
Proof.
  intros Hm. destruct m; try discriminate Hm; cbn [invoke].
  - destruct (close_state self) as (cm & cl & l & new & Hs & Hnew).
    exists cm, cl, l, new. split.
    + rewrite <- Hs. unfold of_unit, bind.
      destruct (close wire_SendReceive wire_Disconnect self) as [[a|e] s1];
        reflexivity.
    + split; [|split; [|congruence]];
        destruct Hnew as [->|[->|[->| ->]]]; cbn [length]; try lia;
        wire_format_ok.
  - destruct (enter_state self) as (cm & l & new & Hs & Hnew).
    exists cm, (_closed self), l, new. split.
    + rewrite <- Hs. unfold of_bool, bind.
      destruct (enter_command_mode wire_SendReceive self) as [[a|e] s1];
        reflexivity.
    + split; [|split];
        destruct Hnew as [->| ->]; cbn [length]; try lia;
        try (intros _; split; reflexivity);
        wire_format_ok.
  - destruct (leave_state self) as (cm & l & new & Hs & Hnew).
    exists cm, (_closed self), l, new. split.
    + rewrite <- Hs. unfold of_bool, bind.
      destruct (leave_command_mode wire_SendReceive self) as [[a|e] s1];
        reflexivity.
    + split; [|split];
        destruct Hnew as [->| ->]; cbn [length]; try lia;
        try (intros _; split; reflexivity);
        wire_format_ok.
Qed.

(** X9.  Only [close] sets [_closed] or calls [Disconnect], and only
    [close], [enter_command_mode] and [leave_command_mode] assign
    [_command_mode]: every other method leaves both attributes as they
    were, whether it returns or raises. *)
Theorem attributes_frame (m : method) (self : RN42 T) :
  let out := invoke wire_SendReceive wire_Disconnect m self in
  (m <> m_close ->
   _closed (snd out) = _closed self
   /\ disconnects (calls (_serial (snd out)))
      = disconnects (calls (_serial self)))
  /\ (manages_session m = false ->
      _command_mode (snd out) = _command_mode self).
Proof.
  cbv zeta. destruct (manages_session m) eqn:Hm.
  - destruct (managed_state m self Hm) as (cm & cl & l & new & -> & _ & _ & H).
    split; [|discriminate]. intros Hne. destruct (H Hne) as [-> Hd].
    cbn [snd _closed _serial calls]. rewrite disconnects_app, Hd.
    split; [reflexivity|lia].
  - destruct (plain_state m self Hm) as (command & ->).
    unfold after_send. cbn [_closed _command_mode _serial calls].
    rewrite disconnects_app. cbn [disconnects].
    repeat split. lia.
Qed.

(** X10.  A method only appends to the call log, at most two calls, each
    of them [Disconnect()] or [SendReceive(data, size=0, retry=2)] where
    [data] is the bare entry token or a command followed by the
    terminator; a method that does not manage the session makes exactly
    one call. *)
Theorem calls_wire_format (m : method) (self : RN42 T) :
  exists new,
    calls (_serial (snd (invoke wire_SendReceive wire_Disconnect m self)))
    = calls (_serial self) ++ new
    /\ Forall wire_format new
    /\ length new <= 2
    /\ (manages_session m = false ->
        exists command, new = [CallSendReceive (command +:+ NEWLINE) 0 2]).
Proof.
  destruct (manages_session m) eqn:Hm.
  - destruct (managed_state m self Hm) as (cm & cl & l & new & -> & Hf & Hl & _).
    exists new. repeat split; [exact Hf|exact Hl|discriminate].
  - destruct (plain_state m self Hm) as (command & ->).
    exists [CallSendReceive (command +:+ NEWLINE) 0 RETRY].
    split; [reflexivity|]. split; [|split; [cbn; lia|]].
    + wire_format_ok.
    + intros _. exists command. reflexivity.
Qed.

End Frame.

(** ** Entering, leaving and closing: what a caller gets *)

Lemma unexpected_none (result : string) : unexpected "" "" result = false.
Proof. reflexivity. Qed.

Section Lifecycle.

Context {T : Type}.
Variable wire_SendReceive : string -> Z -> Z -> T -> result string * T.
Variable wire_Disconnect : T -> T.

(** X11.  [enter_command_mode] never returns [False]: when it returns,
    the value is [True], [_command_mode] is true, [_closed] is what it
    was, and the device answered the entry token with a text that
    contains ["CMD"] or is empty once trimmed. *)
Theorem enter_command_mode_returns (self self' : RN42 T) b :
  enter_command_mode wire_SendReceive self = (Return b, self') ->
  b = true
  /\ _command_mode self' = true
  /\ _closed self' = _closed self
  /\ exists r l',
       wire_SendReceive "$$$" 0 RETRY (link (_serial self)) = (Return r, l')
       /\ (Str.contains "CMD" (Str.strip r) = true \/ Str.strip r = "").
Proof.
  intros Hrun.
  destruct (wire_SendReceive CMD_ENTER_COMMAND_MODE 0 RETRY
              (link (_serial self))) as [[r|e0] l'] eqn:H.
  - destruct (Str.contains "CMD" (Str.strip r)) eqn:Hc.
    + rewrite (enter_marker _ _ _ _ H Hc) in Hrun.
      injection Hrun as <- <-.
      repeat split. exists r, l'. split; [exact H|left; exact Hc].
    + destruct (String.eqb_spec (Str.strip r) "") as [He|He].
      * rewrite (enter_empty _ _ _ _ H He) in Hrun. unfold get_chip_name in Hrun.
        pose proof (transact_attributes wire_SendReceive CMD_GET_CHIP_NAME "" ""
                      "getting chip name"
                      (after_send self CMD_ENTER_COMMAND_MODE l')) as [_ Hb].
        destruct (serial_send_and_receive wire_SendReceive _ _ _ _ _)
          as [[n|e1] s1]; cbn [snd] in Hb.
        -- destruct (Str.startswith n CHIP_NAME); [|discriminate].
           injection Hrun as <- <-.
           repeat split; [exact Hb|].
           exists r, l'. split; [exact H|right; exact He].
        -- destruct (isinstance_Exception e1); discriminate.
      * rewrite (enter_other _ _ _ _ H Hc He) in Hrun. discriminate.
  - rewrite (enter_raise _ _ _ _ H) in Hrun.
    destruct (isinstance_SerialTimeoutException e0); discriminate.
Qed.

(** X12.  [leave_command_mode] in command mode, answered with a text
    that is ["END"] once trimmed, returns [True], clears [_command_mode]
    and has made the one call [SendReceive('---\r\n', size=0, retry=2)];
    and whenever [leave_command_mode] returns, the value is [True] and
    [_command_mode] is false. *)
Theorem leave_command_mode_exits (self : RN42 T) :
  (forall r l',
      _command_mode self = true ->
      wire_SendReceive ("---" +:+ NEWLINE) 0 RETRY (link (_serial self))
        = (Return r, l') ->
      Str.strip r = "END" ->
      leave_command_mode wire_SendReceive self
      = (Return true,
         mkRN42 false (_closed self)
           (mkSerial l' (calls (_serial self)
                           ++ [CallSendReceive ("---" +:+ NEWLINE) 0 2]))))
  /\ (forall b self',
        leave_command_mode wire_SendReceive self = (Return b, self') ->
        b = true /\ _command_mode self' = false).
Proof.
  split.
  - intros r l' Hcm H He.
    rewrite (leave_inside _ _ Hcm).
    rewrite (transact_exact wire_SendReceive CMD_LEAVE_COMMAND_MODE "END"
               "leaving command mode" self r l' ltac:(discriminate) H).
    rewrite He. reflexivity.
  - intros b self' Hrun.
    pose proof (leave_effect wire_SendReceive self) as (_ & _ & _ & Hs).
    rewrite Hrun in Hs. cbn [fst snd raised] in Hs.
    split; [|apply Hs; reflexivity].
    destruct (_command_mode self) eqn:Hcm.
    + rewrite (leave_inside _ _ Hcm) in Hrun.
      destruct (serial_send_and_receive wire_SendReceive _ _ _ _ self)
        as [[a|e] s1]; [|discriminate].
      injection Hrun as <- _. reflexivity.
    + rewrite (leave_outside _ _ Hcm) in Hrun.
      injection Hrun as <- _. reflexivity.
Qed.

(** X13.  [close] on a session that is neither closed nor in command
    mode always returns: it sends nothing, calls [Disconnect] once and
    sets [_closed]. *)
Theorem close_outside_command_mode (self : RN42 T) :
  _closed self = false ->
  _command_mode self = false ->
  close wire_SendReceive wire_Disconnect self
  = (Return tt,
     mkRN42 false true
       (mkSerial (wire_Disconnect (link (_serial self)))
          (calls (_serial self) ++ [CallDisconnect]))).
Proof.
  intros Hc Hcm.
  rewrite (close_open _ _ _ Hc), (leave_outside _ _ Hcm).
  unfold after_disconnect. cbn [_serial _command_mode]. rewrite Hcm.
  reflexivity.
Qed.



(** X15.  On a device that answers every call, the eight getters
    without expectation never raise, whatever the answer, the empty one
    included. *)
Theorem unchecked_getters_accept_any_answer (m : method) (self : RN42 T) :
  (forall data size retry l,
      raised (fst (wire_SendReceive data size retry l)) = false) ->
  In m unchecked_getters ->
  raised (fst (invoke wire_SendReceive wire_Disconnect m self)) = false.
Proof.
  intros Hw Hin.
  assert (forall command msg (s : RN42 T),
             exists r s',
               serial_send_and_receive wire_SendReceive command "" "" msg s
               = (Return (Str.strip r), s')) as Ht.
  { intros command msg s.
    pose proof (Hw (command +:+ NEWLINE) 0%Z RETRY (link (_serial s))) as Hr.
    destruct (wire_SendReceive (command +:+ NEWLINE) 0 RETRY
                (link (_serial s))) as [[r|e0] l'] eqn:H; [|discriminate Hr].
    exists r. eexists.
    rewrite (transact_reply _ _ _ _ _ _ _ _ H), unexpected_none. reflexivity. }
  unfold unchecked_getters in Hin. cbn [In] in Hin.
  repeat (destruct Hin as [<-|Hin];
          [cbn [invoke];
           cbv beta delta
             [of_bool of_str of_optional bind ret
              get_chip_name get_operation_mode get_authentication_mode
              get_service_profile get_local_bluetooth_address
              get_connection_status get_remote_connected_bluetooth_address
              get_HID_deviceType];
           match goal with
           | |- context [serial_send_and_receive _ ?c "" "" ?z ?s] =>
               destruct (Ht c z s) as (r & s' & ->); reflexivity
           end|]).
  destruct Hin.
Qed.

End Lifecycle.

(** ** The demonstration *)

Section Demonstration.

Context {T : Type}.
Variable wire_SendReceive : string -> Z -> Z -> T -> result string * T.
Variable wire_Disconnect : T -> T.




(** X17.  When [GetRN42Info] ends without an exception, it has printed
    twelve lines, the second is [enter: True], the last is [leave: True],
    and [_command_mode] is false. *)
Theorem GetRN42Info_completes (rn42 s : RN42 T) printed :
  GetRN42Info wire_SendReceive wire_Disconnect rn42 = (Return tt, s, printed) ->
  length printed = 12
  /\ printed !! 1 = Some [VStr "enter:"; VBool true]
  /\ last printed = Some [VStr "leave:"; VBool true]
  /\ _command_mode s = false.
Proof.
  unfold GetRN42Info, GetRN42Info_calls. cbn [print_each].
  destruct (invoke wire_SendReceive wire_Disconnect m_enter_command_mode rn42)
    as [[v1|e] s1] eqn:Henter; [|discriminate].
  repeat match goal with
         | |- context [invoke wire_SendReceive wire_Disconnect ?m ?x] =>
             lazymatch m with
             | m_leave_command_mode => fail
             | _ => destruct (invoke wire_SendReceive wire_Disconnect m x)
                      as [[?v|?e] ?s]; [|discriminate]
             end
         end.
  destruct (invoke wire_SendReceive wire_Disconnect m_leave_command_mode _)
    as [[v11|e] s11] eqn:Hleave; [|discriminate].
  intros [= <- <-]. cbn [length].
  cbn [invoke] in Henter, Hleave. unfold of_bool, bind, ret in Henter, Hleave.
  assert (v1 = VBool true) as ->.
  { destruct (enter_command_mode wire_SendReceive rn42)
      as [[b|e] t1] eqn:He; [|discriminate].
    injection Henter as <- _.
    destruct (wire_SendReceive CMD_ENTER_COMMAND_MODE 0 RETRY
                (link (_serial rn42))) as [[r|e0] l'] eqn:H.
    - destruct (Str.contains "CMD" (Str.strip r)) eqn:Hc.
      + rewrite (enter_marker _ _ _ _ H Hc) in He. congruence.
      + destruct (String.eqb_spec (Str.strip r) "") as [Hr|Hr].
        * rewrite (enter_empty _ _ _ _ H Hr) in He.
          destruct (get_chip_name wire_SendReceive _) as [[n|e1] t2].
          -- destruct (Str.startswith n CHIP_NAME); congruence.
          -- destruct (isinstance_Exception e1); discriminate.
        * rewrite (enter_other _ _ _ _ H Hc Hr) in He. discriminate.
    - rewrite (enter_raise _ _ _ _ H) in He.
      destruct (isinstance_SerialTimeoutException e0); discriminate. }
  match type of Hleave with
  | context [leave_command_mode wire_SendReceive ?x] =>
      pose proof (leave_effect wire_SendReceive x) as (_ & _ & _ & Hs);
      destruct (_command_mode x) eqn:Hcm;
      [rewrite (leave_inside _ _ Hcm) in Hleave, Hs;
       destruct (serial_send_and_receive wire_SendReceive _ _ _ _ x)
         as [[a|e] t1]; [|discriminate]
      |rewrite (leave_outside _ _ Hcm) in Hleave, Hs];
      injection Hleave as <- <-; cbn [fst snd raised] in Hs;
      repeat split; apply Hs; reflexivity
  end.
Qed.

End Demonstration.

(** ** The properties above on scripted and steady devices *)

(** The exit command answered with ["END\r\n"]. *)
Lemma serial_send_and_receive_returns_iff_witness :
  fst (serial_send_and_receive Scripted.SendReceive
         "---" "END" "" "leaving command mode" Scripted.obliging)
  = Return "END".
Proof.
  apply (proj1 (serial_send_and_receive_returns_iff Scripted.SendReceive
                  "---" "END" "" "leaving command mode" Scripted.obliging
                  ("END" +:+ NEWLINE) [] eq_refl)).
  split; [right; reflexivity|left; reflexivity].
Defined.

Lemma serial_send_and_receive_result_trimmed_witness :
  trimmed "END" /\ Str.strip "END" = "END".
Proof.
  exact (serial_send_and_receive_result_trimmed Scripted.SendReceive
           "---" "END" "" "leaving command mode" Scripted.obliging
           _ "END" eq_refl).
Defined.

(** A device that times out. *)
Lemma serial_send_and_receive_raises_witness :
  fst (serial_send_and_receive Scripted.SendReceive
         "GN" "" "" "getting chip name" (Scripted.new []))
  = Raise (RN42Exception "Failulre in getting chip name").
Proof.
  exact (proj1 (serial_send_and_receive_raises Scripted.SendReceive
                  "GN" "" "" "getting chip name" (Scripted.new []))
           (SerialTimeoutException "Write timeout") eq_refl).
Defined.

Lemma setters_expect_AOK_witness :
  fst (invoke Scripted.SendReceive Scripted.Disconnect m_set_master_mode
         (Scripted.in_command_mode [Return ("AOK" +:+ NEWLINE)]))
  = Return (VBool true).
Proof.
  apply (proj1 (setters_expect_AOK Scripted.SendReceive Scripted.Disconnect
                  m_set_master_mode "SM,1" "setting master mode"
                  (Scripted.in_command_mode [Return ("AOK" +:+ NEWLINE)])
                  ("AOK" +:+ NEWLINE) []
                  (or_introl eq_refl) eq_refl)).
  reflexivity.
Defined.

(** An answer that contains ["Reboot"] without being it. *)
Lemma reboot_expects_exact_Reboot_witness :
  Str.contains "Reboot" "Reboot!" = true
  /\ fst (reboot Scripted.SendReceive
            (Scripted.in_command_mode [Return ("Reboot!" +:+ NEWLINE)]))
     = Raise (RN42Exception "Failulre in rebooting RN-42").
Proof.
  split; [reflexivity|].
  apply (proj2 (reboot_expects_exact_Reboot Scripted.SendReceive
                  (Scripted.in_command_mode [Return ("Reboot!" +:+ NEWLINE)])
                  ("Reboot!" +:+ NEWLINE) [] eq_refl)).
  discriminate.
Defined.

Lemma get_firmware_version_expects_Ver_witness :
  fst (get_firmware_version Scripted.SendReceive
         (Scripted.in_command_mode [Return ("Ver 6.15 04/26/2013" +:+ NEWLINE)]))
  = Return "Ver 6.15 04/26/2013".
Proof.
  apply (proj1 (get_firmware_version_expects_Ver Scripted.SendReceive
                  (Scripted.in_command_mode
                     [Return ("Ver 6.15 04/26/2013" +:+ NEWLINE)])
                  ("Ver 6.15 04/26/2013" +:+ NEWLINE) [] eq_refl)).
  reflexivity.
Defined.

Lemma get_connection_status_decodes_witness :
  exists connected,
    fst (get_connection_status Scripted.SendReceive
           (Scripted.in_command_mode [Return ("1,0,0" +:+ NEWLINE)]))
    = Return connected
    /\ (connected = true
        <-> Str.strip ("1,0,0" +:+ NEWLINE) = "1"
            \/ Str.startswith (Str.strip ("1,0,0" +:+ NEWLINE)) "1," = true).
Proof.
  exact (get_connection_status_decodes Scripted.SendReceive
           (Scripted.in_command_mode [Return ("1,0,0" +:+ NEWLINE)])
           ("1,0,0" +:+ NEWLINE) [] eq_refl).
Defined.

Lemma get_remote_connected_bluetooth_address_decodes_witness :
  fst (get_remote_connected_bluetooth_address Scripted.SendReceive
         (Scripted.in_command_mode [Return ("000000000000" +:+ NEWLINE)]))
  = Return None.
Proof.
  exact (proj1 (get_remote_connected_bluetooth_address_decodes
                  Scripted.SendReceive
                  (Scripted.in_command_mode
                     [Return ("000000000000" +:+ NEWLINE)]))
           ("000000000000" +:+ NEWLINE) [] eq_refl).
Defined.

Lemma attributes_frame_witness :
  _closed (snd (invoke Scripted.SendReceive Scripted.Disconnect m_reboot
                  Scripted.refusing)) = false
  /\ disconnects
       (calls (_serial (snd (invoke Scripted.SendReceive Scripted.Disconnect
                               m_reboot Scripted.refusing)))) = 0.
Proof.
  apply (proj1 (attributes_frame Scripted.SendReceive Scripted.Disconnect
                  m_reboot Scripted.refusing)).
  discriminate.
Defined.

Lemma calls_wire_format_witness :
  exists new,
    calls (_serial (snd (invoke Scripted.SendReceive Scripted.Disconnect
                           m_reboot Scripted.refusing)))
    = new
    /\ exists command, new = [CallSendReceive (command +:+ NEWLINE) 0 2].
Proof.
  destruct (calls_wire_format Scripted.SendReceive Scripted.Disconnect
              m_reboot Scripted.refusing) as (new & Hc & _ & _ & Hone).
  exists new. split; [exact Hc|]. apply Hone. reflexivity.
Defined.

Lemma enter_command_mode_returns_witness :
  _command_mode
    (snd (enter_command_mode Scripted.SendReceive Scripted.demo)) = true
  /\ _closed
       (snd (enter_command_mode Scripted.SendReceive Scripted.demo)) = false.
Proof.
  destruct (enter_command_mode_returns Scripted.SendReceive Scripted.demo
              _ true eq_refl) as (_ & H2 & H3 & _).
  split; [exact H2|exact H3].
Defined.

Lemma leave_command_mode_exits_witness :
  leave_command_mode Scripted.SendReceive Scripted.obliging
  = (Return true,
     mkRN42 false false
       (mkSerial [] [CallSendReceive ("---" +:+ NEWLINE) 0 2])).
Proof.
  exact (proj1 (leave_command_mode_exits Scripted.SendReceive Scripted.obliging)
           ("END" +:+ NEWLINE) [] eq_refl eq_refl eq_refl).
Defined.

Lemma close_outside_command_mode_witness :
  close Scripted.SendReceive Scripted.Disconnect Scripted.misnamed
  = (Return tt,
     mkRN42 false true
       (mkSerial [Return ""; Return ("XYZ-1234" +:+ NEWLINE)] [CallDisconnect])).
Proof.
  exact (close_outside_command_mode Scripted.SendReceive Scripted.Disconnect
           Scripted.misnamed eq_refl eq_refl).
Defined.


(** A device that answers nothing at all. *)
Lemma unchecked_getters_accept_any_answer_witness :
  raised (fst (invoke (Steady.SendReceive "") Steady.Disconnect
                 m_get_chip_name Steady.new)) = false.
Proof.
  apply (unchecked_getters_accept_any_answer (Steady.SendReceive "")
           Steady.Disconnect m_get_chip_name Steady.new).
  - intros data size retry l. reflexivity.
  - left. reflexivity.
Defined.

Lemma GetRN42Info_completes_witness :
  length (snd (GetRN42Info Scripted.SendReceive Scripted.Disconnect
                 Scripted.demo)) = 12
  /\ snd (GetRN42Info Scripted.SendReceive Scripted.Disconnect Scripted.demo)
     !! 1 = Some [VStr "enter:"; VBool true]
  /\ last (snd (GetRN42Info Scripted.SendReceive Scripted.Disconnect
                  Scripted.demo))
     = Some [VStr "leave:"; VBool true]
  /\ _command_mode
       (snd (fst (GetRN42Info Scripted.SendReceive Scripted.Disconnect
                    Scripted.demo))) = false.
Proof.
  exact (GetRN42Info_completes Scripted.SendReceive Scripted.Disconnect
           Scripted.demo
           (snd (fst (GetRN42Info Scripted.SendReceive Scripted.Disconnect
                        Scripted.demo)))
           (snd (GetRN42Info Scripted.SendReceive Scripted.Disconnect
                   Scripted.demo))
           eq_refl).
Defined.
